(** * Passport photo pipeline: crop geometry, colour resolution, sheet layout

    A shallow embedding of [backend/utils/process_photo.py] and
    [backend/utils/a4_generator.py], and of the two endpoints of
    [backend/main.py] that call them.

    Conventions of the embedding.
    - Python [int] is [Z].  Floor division [//] is [Z.div] (both round
      towards minus infinity and raise / are undefined at divisor 0; the
      exception is written out).
    - A finite Python [float] is the rational it denotes ([Q]).  The
      comparisons, [x + w / 2], [crop_size / 2] and the subtractions of the
      crop geometry are exact in binary64 on half-integers of pixel
      magnitude and are written exactly; the product [max(w, h) * scale] is
      rounded to the nearest binary64 value, or is an infinity when it
      leaves the double range.  [int(f)] truncates towards zero and raises
      [OverflowError] on an infinity.
    - The rectangles of the face detector are rows of a numpy [int32]
      array: products of their entries wrap to 32 bits.
    - A Python [str] is a Rocq [string]: a sequence of code points below 256,
      with Python's [isspace] and [lower] on those code points.
    - Code that can raise returns [result A]; [try: ... except Exception:] is
      [try_except].  Only [Exception] subclasses are modelled.
    - Pillow, OpenCV, rembg and ReportLab are collaborators.  Their pixel
      work is left to the oracles of an environment record, each of which
      may fail; sizes and modes follow the libraries' documented contracts,
      and so does the kind of object a call accepts ([drawInlineImage]
      draws a PIL image, not a byte buffer). *)

From Stdlib Require Import ZArith QArith Qabs Qround Qminmax Lia List Ascii String.
From stdpp Require Import base gmap strings.

Local Open Scope Z_scope.

(** ** Python values, exceptions and numbers *)

Module Py.

Inductive exn : Type :=
| ValueError
| TypeError
| ZeroDivisionError
| OverflowError
| AttributeError
| LibraryError (code : nat).

Definition result (A : Type) : Type := exn + A.

Definition ok {A} (a : A) : result A := inr a.
Definition raise {A} (e : exn) : result A := inl e.

Definition bind {A B} (m : result A) (k : A -> result B) : result B :=
  match m with
  | inl e => inl e
  | inr a => k a
  end.

(** [try: body  except Exception: handler] *)
Definition try_except {A} (body : result A) (handler : exn -> result A) : result A :=
  match body with
  | inl e => handler e
  | inr a => inr a
  end.

(** [int(f)] for a float [f]: truncation towards zero. *)
Definition int_of_float (q : Q) : Z := Z.quot (Qnum q) (Z.pos (Qden q)).

(** [round(f)] for a float [f]: nearest integer, ties to even. *)
Definition round (q : Q) : Z :=
  let f := Qfloor q in
  match Qcompare (q - inject_Z f) (1 # 2) with
  | Lt => f
  | Gt => f + 1
  | Eq => if Z.even f then f else f + 1
  end.

(** The binary64 value nearest to a real (ties to even), for magnitudes in
    the normal range: [k] is the binary exponent of [|q|], the significand
    is scaled to 53 bits and rounded. *)
Definition binary64 (q : Q) : Q :=
  match Qnum q with
  | 0 => 0%Q
  | _ =>
      let n := Z.abs (Qnum q) in
      let d := Z.pos (Qden q) in
      let k := Z.log2 n - Z.log2 d in
      let k := if (if 0 <=? k then n <? d * 2 ^ k else n * 2 ^ (- k) <? d)
               then k - 1 else k in
      let e := k - 52 in
      let m := round (if 0 <=? e then n # Z.to_pos (d * 2 ^ e)
                      else (n * 2 ^ (- e)) # Qden q) in
      let r := if 0 <=? e then inject_Z (m * 2 ^ e) else m # Z.to_pos (2 ^ (- e)) in
      if 0 <? Qnum q then r else (- r)%Q
  end.

(** A float as an operation leaves it: a finite binary64 value or an
    infinity (the operands here are finite, so no NaN arises). *)
Inductive float : Type :=
| Finite (q : Q)
| Infinity.

(** Rounding to nearest sends a real to an infinity from the midpoint
    between the largest double and [2^1024] on. *)
Definition BINARY64_LIMIT : Z := 2 ^ 1024 - 2 ^ 970.

Definition overflows (q : Q) : bool := Qle_bool (inject_Z BINARY64_LIMIT) (Qabs q).

(** [a * b] on finite floats. *)
Definition fmul (a b : Q) : float :=
  if overflows (a * b) then Infinity else Finite (binary64 (a * b)).

(** [float(n)] for an int, as [n * f] converts its int operand: an int
    beyond the double range raises.  Ints up to [2^53], which covers every
    pixel count, are exact as floats and are taken as such. *)
Definition float_of_int (n : Z) : result Q :=
  if overflows (inject_Z n) then raise OverflowError else ok (inject_Z n).

(** [int(f)]: truncation, and [OverflowError] on an infinity. *)
Definition int (f : float) : result Z :=
  match f with
  | Finite q => ok (int_of_float q)
  | Infinity => raise OverflowError
  end.

(** [a * b] on numpy [int32] scalars: the product wraps to 32 bits. *)
Definition int32_mul (a b : Z) : Z := (a * b + 2 ^ 31) mod 2 ^ 32 - 2 ^ 31.

(** [a // b] on ints. *)
Definition floordiv (a b : Z) : result Z :=
  if b =? 0 then raise ZeroDivisionError else ok (a / b).

End Py.

Notation "'let*' x ':=' m 'in' k" := (Py.bind m (fun x => k))
  (at level 10, x pattern, m at level 100, k at level 200).

(** ** Crop geometry ([crop_centered_square_from_bbox], lines 89-117) *)

Module CropGeometry.

Definition BBox : Type := Z * Z * Z * Z.        (* (x, y, w, h) *)
Definition Box : Type := Z * Z * Z * Z.         (* (left, top, right, bottom) *)

(** [crop_size = int(max(w, h) * scale)]: [OverflowError] when the product
    is beyond the double range (a [face_scale] such as [1e307]). *)
Definition crop_size (w h : Z) (scale : Q) : Py.result Z :=
  let* extent := Py.float_of_int (Z.max w h) in
  Py.int (Py.fmul extent scale).

(** The box handed to [img_pil.crop], line by line; [width] and [height]
    are [img_pil.width] and [img_pil.height]. *)
Definition crop_box (width height : Z) (bbox : BBox) (scale : Q) : Py.result Box :=
  let '(x, y, w, h) := bbox in
  let cx := (inject_Z x + inject_Z w / 2)%Q in
  let cy := (inject_Z y + inject_Z h / 2)%Q in
  let* crop_size := crop_size w h scale in
  let left_ := Py.int_of_float (Qmax (cx - inject_Z crop_size / 2) 0) in
  let top_ := Py.int_of_float (Qmax (cy - inject_Z crop_size / 2) 0) in
  let right_ := Z.min (left_ + crop_size) width in
  let bottom_ := Z.min (top_ + crop_size) height in
  let '(left_, right_) :=
    if right_ - left_ <? crop_size then
      if left_ =? 0 then (left_, Z.min crop_size width)
      else (Z.max 0 (right_ - crop_size), right_)
    else (left_, right_) in
  let '(top_, bottom_) :=
    if bottom_ - top_ <? crop_size then
      if top_ =? 0 then (top_, Z.min crop_size height)
      else (Z.max 0 (bottom_ - crop_size), bottom_)
    else (top_, bottom_) in
  Py.ok (left_, top_, right_, bottom_).

(** The two axes of [crop_box] do not interact; [axis] is what the function
    computes on one of them ([dim] the image extent, [x] and [w] the box
    origin and extent on that axis). *)
Definition axis (dim x w cs : Z) : Z * Z :=
  let c := (inject_Z x + inject_Z w / 2)%Q in
  let lo := Py.int_of_float (Qmax (c - inject_Z cs / 2) 0) in
  let hi := Z.min (lo + cs) dim in
  if hi - lo <? cs then
    if lo =? 0 then (lo, Z.min cs dim)
    else (Z.max 0 (hi - cs), hi)
  else (lo, hi).

(** The spec's wording of the crop size: [round(max(w,h) * scale)]. *)
Definition spec_crop_size (w h : Z) (scale : Q) : Z :=
  Py.round (Py.binary64 (inject_Z (Z.max w h) * scale)).

End CropGeometry.

(** ** Strings and [int()] *)

Module PyStr.

Local Open Scope N_scope.

(** [str.isspace] on one code point (what [str.strip] removes). *)
Definition isspace (c : ascii) : bool :=
  let n := N_of_ascii c in
  ((9 <=? n) && (n <=? 13)) || ((28 <=? n) && (n <=? 32))
  || (n =? 133) || (n =? 160).

(** [str.lower] on one code point: A-Z, and the Latin-1 capitals
    U+00C0-U+00DE except the multiplication sign U+00D7. *)
Definition lower_char (c : ascii) : ascii :=
  let n := N_of_ascii c in
  if ((65 <=? n) && (n <=? 90))
     || ((192 <=? n) && (n <=? 222) && negb (n =? 215))
  then ascii_of_N (n + 32) else c.

Fixpoint lower (s : string) : string :=
  match s with
  | EmptyString => EmptyString
  | String c s' => String (lower_char c) (lower s')
  end.

Fixpoint lstrip (s : string) : string :=
  match s with
  | EmptyString => EmptyString
  | String c s' => if isspace c then lstrip s' else s
  end.

Fixpoint rstrip (s : string) : string :=
  match s with
  | EmptyString => EmptyString
  | String c s' =>
      match rstrip s' with
      | EmptyString => if isspace c then EmptyString else String c EmptyString
      | r => String c r
      end
  end.

Definition strip (s : string) : string := rstrip (lstrip s).

(** A string of white space only. *)
Fixpoint all_space (s : string) : bool :=
  match s with
  | EmptyString => true
  | String c s' => isspace c && all_space s'
  end.

Definition startswith (p s : string) : bool := String.prefix p s.

(** [s[i:j]] for [0 <= i <= j]. *)
Definition slice (s : string) (i j : nat) : string := String.substring i (j - i) s.

Local Open Scope Z_scope.

(** Value of a digit character for [int(s, base)]: 0-9, then a-z / A-Z. *)
Definition digit_value (c : ascii) : option Z :=
  let n := Z.of_N (N_of_ascii c) in
  if (48 <=? n) && (n <=? 57) then Some (n - 48)
  else if (97 <=? n) && (n <=? 122) then Some (n - 87)
  else if (65 <=? n) && (n <=? 90) then Some (n - 55)
  else None.

(** White space skipped by [int()]: the C locale's, plus the non-ASCII
    spaces, which are first mapped to a blank. *)
Definition int_isspace (c : ascii) : bool :=
  let n := N_of_ascii c in
  (((9 <=? n) && (n <=? 13)) || (n =? 32) || (n =? 133) || (n =? 160))%N.

Fixpoint skip_space (s : string) : string :=
  match s with
  | EmptyString => EmptyString
  | String c s' => if int_isspace c then skip_space s' else s
  end.

Definition is_underscore (c : ascii) : bool := Ascii.eqb c "_"%char.

(** The digit scan of [int()]: digits below [base] with single underscores
    between them.  [prev] is the character before; the result is the value
    and the unread rest, or [None] for no digit, a leading, doubled or
    trailing underscore. *)
Fixpoint scan_digits (base : Z) (s : string) (prev : option ascii) (acc : Z)
  : option (Z * string) :=
  let stop :=
    match prev with
    | None => None
    | Some p => if is_underscore p then None else Some (acc, s)
    end in
  match s with
  | EmptyString => stop
  | String c s' =>
      if is_underscore c then
        match prev with
        | None => None
        | Some p => if is_underscore p then None else scan_digits base s' (Some c) acc
        end
      else
        match digit_value c with
        | Some d => if d <? base then scan_digits base s' (Some c) (acc * base + d) else stop
        | None => stop
        end
  end.

(** [int(s, base)] for [base] 10 or 16: optional white space, sign, for base
    16 an optional [0x] (and one underscore after it), digits, white space. *)
Definition int_of_str (base : Z) (s : string) : Py.result Z :=
  let s := skip_space s in
  let '(sign, s) :=
    match s with
    | String "+"%char s' => (1, s')
    | String "-"%char s' => (-1, s')
    | _ => (1, s)
    end in
  let s :=
    match s with
    | String "0"%char (String c s') =>
        if (base =? 16) && (Ascii.eqb c "x"%char || Ascii.eqb c "X"%char) then
          match s' with
          | String "_"%char s'' => s''
          | _ => s'
          end
        else s
    | _ => s
    end in
  match scan_digits base s None 0 with
  | Some (v, rest) =>
      match skip_space rest with
      | EmptyString => Py.ok (sign * v)
      | _ => Py.raise Py.ValueError
      end
  | None => Py.raise Py.ValueError
  end.

End PyStr.

(** ** Dynamically typed arguments *)

Module PyVal.

#[warnings="-register-all"]
Inductive value : Type :=
| VNone
| VBool (b : bool)
| VInt (z : Z)
| VFloat (q : Q)
| VStr (s : string)
| VTuple (items : list value)
| VList (items : list value).

(** [int(v)] *)
Definition int (v : value) : Py.result Z :=
  match v with
  | VInt z => Py.ok z
  | VBool b => Py.ok (if b then 1 else 0)
  | VFloat q => Py.ok (Py.int_of_float q)
  | VStr s => PyStr.int_of_str 10 s
  | VNone | VTuple _ | VList _ => Py.raise Py.TypeError
  end.

(** [isinstance(v, (list, tuple))], with the items. *)
Definition sequence_items (v : value) : option (list value) :=
  match v with
  | VTuple l | VList l => Some l
  | _ => None
  end.

End PyVal.

(** ** Colour resolution ([_parse_color], lines 267-313) *)

Module Color.

Import PyVal.

Definition RGBA : Type := Z * Z * Z * Z.

Definition white : RGBA := (255, 255, 255, 255).

Definition named_colors : gmap string (Z * Z * Z) :=
  list_to_map
    [ ("white"%string, (255, 255, 255));
      ("blue"%string, (0, 102, 204));
      ("light_blue"%string, (173, 216, 230));
      ("red"%string, (204, 0, 0));
      ("light_red"%string, (255, 182, 193));
      ("black"%string, (0, 0, 0));
      ("gray"%string, (128, 128, 128));
      ("light_gray"%string, (211, 211, 211)) ].

(** The body of [try: r = int(c[1:3], 16) ...]. *)
Definition parse_hex (c : string) : Py.result RGBA :=
  let* r := PyStr.int_of_str 16 (PyStr.slice c 1 3) in
  let* g := PyStr.int_of_str 16 (PyStr.slice c 3 5) in
  let* b := PyStr.int_of_str 16 (PyStr.slice c 5 7) in
  Py.ok (r, g, b, 255).

(** The [isinstance(c, str)] branch, after [c = c.strip().lower()].  Falling
    out of it reaches the default, opaque white. *)
Definition resolve_token (c : string) : Py.result RGBA :=
  match named_colors !! c with
  | Some (r, g, b) => Py.ok (r, g, b, 255)
  | None =>
      if PyStr.startswith "#" c && (String.length c =? 7)%nat then
        match parse_hex c with
        | inl Py.ValueError => Py.ok white          (* except ValueError: pass *)
        | other => other
        end
      else Py.ok white
  end.

Definition _parse_color (c : value) : Py.result RGBA :=
  match sequence_items c with
  | Some items =>
      if (3 <=? length items)%nat then
        let* r := int (nth 0 items VNone) in
        let* g := int (nth 1 items VNone) in
        let* b := int (nth 2 items VNone) in
        let* a := if (3 <? length items)%nat then int (nth 3 items VNone)
                  else Py.ok 255 in
        Py.ok (r, g, b, a)
      else Py.ok white
  | None =>
      match c with
      | VStr s => resolve_token (PyStr.lower (PyStr.strip s))
      | _ => Py.ok white
      end
  end.

(** A colour value as the data model has it: four 8-bit channels. *)
Definition channel_ok (v : Z) : bool := (0 <=? v) && (v <=? 255).

Definition valid_rgba (c : RGBA) : bool :=
  let '(r, g, b, a) := c in
  channel_ok r && channel_ok g && channel_ok b && channel_ok a.

End Color.

(** ** Pillow, OpenCV and rembg as collaborators *)

Module Pil.

Inductive Mode : Type := RGB | RGBA | L | P | CMYK.

(** An image buffer: mode, size and pixel contents.  The contents are
    whatever the libraries compute ([Pixels] stays abstract). *)
Record Image (Pixels : Type) : Type := mkImage {
  mode : Mode;
  width : Z;
  height : Z;
  data : Pixels
}.

Arguments mkImage {Pixels} _ _ _ _.
Arguments mode {Pixels} _.
Arguments width {Pixels} _.
Arguments height {Pixels} _.
Arguments data {Pixels} _.

Definition size {Pixels} (img : Image Pixels) : Z * Z := (width img, height img).

(** What the libraries do with pixels, and where they fail.  Every oracle
    that returns a [Py.result] may raise for any argument. *)
Record Env (Pixels : Type) : Type := mkEnv {
  px_convert : Image Pixels -> Mode -> Py.result Pixels;
  px_resize : Image Pixels -> Z * Z -> Py.result Pixels;            (* LANCZOS *)
  px_rotate : Image Pixels -> Z -> Py.result (Z * Z * Pixels);      (* expand=True *)
  px_crop : Image Pixels -> CropGeometry.Box -> Py.result Pixels;
  px_solid : Mode -> Z * Z -> Color.RGBA -> Pixels;                 (* Image.new *)
  px_alpha_composite : Image Pixels -> Image Pixels -> Py.result Pixels;
  px_brightness : Image Pixels -> Q -> Py.result Pixels;
  px_contrast : Image Pixels -> Q -> Py.result Pixels;
  (* cv2.CascadeClassifier(...).detectMultiScale on the grey image *)
  cv2_gray : Image Pixels -> Py.result Pixels;
  cv2_detect_multi_scale : Pixels -> Py.result (list CropGeometry.BBox);
  (* rembg *)
  REMBG_AVAILABLE : bool;
  rembg_remove : Image Pixels -> Py.result (Image Pixels);
  (* ReportLab *)
  pdf_page_ok : bool;          (* PNG save, Canvas and its save succeed *)
  pdf_error_page_ok : bool     (* Canvas, drawString and save succeed *)
}.

Arguments px_convert {Pixels} _ _ _.
Arguments px_resize {Pixels} _ _ _.
Arguments px_rotate {Pixels} _ _ _.
Arguments px_crop {Pixels} _ _ _.
Arguments px_solid {Pixels} _ _ _ _.
Arguments px_alpha_composite {Pixels} _ _ _.
Arguments px_brightness {Pixels} _ _ _.
Arguments px_contrast {Pixels} _ _ _.
Arguments cv2_gray {Pixels} _ _.
Arguments cv2_detect_multi_scale {Pixels} _ _.
Arguments REMBG_AVAILABLE {Pixels} _.
Arguments rembg_remove {Pixels} _ _.
Arguments pdf_page_ok {Pixels} _.
Arguments pdf_error_page_ok {Pixels} _.

Section Operations.

Context {Pixels : Type} (env : Env Pixels).

(** [img.convert(m)]: same size, mode [m]. *)
Definition convert (img : Image Pixels) (m : Mode) : Py.result (Image Pixels) :=
  let* px := px_convert env img m in
  Py.ok (mkImage m (width img) (height img) px).

(** [img.resize((w, h), Image.LANCZOS)]: same mode, size [(w, h)]. *)
Definition resize (img : Image Pixels) (sz : Z * Z) : Py.result (Image Pixels) :=
  let* px := px_resize env img sz in
  Py.ok (mkImage (mode img) (fst sz) (snd sz) px).

(** [img.rotate(angle, expand=True, fillcolor='white')]: same mode, the
    canvas grown to hold the rotated image. *)
Definition rotate (img : Image Pixels) (angle : Z) : Py.result (Image Pixels) :=
  let* (w, h, px) := px_rotate env img angle in
  Py.ok (mkImage (mode img) w h px).

(** [img.crop((left, top, right, bottom))]: same mode, size
    [(right - left, bottom - top)]; the box need not lie inside the image. *)
Definition crop (img : Image Pixels) (box : CropGeometry.Box) : Py.result (Image Pixels) :=
  let '(left_, top_, right_, bottom_) := box in
  let* px := px_crop env img box in
  Py.ok (mkImage (mode img) (right_ - left_) (bottom_ - top_) px).

(** [Image.new(mode, size, color)] *)
Definition new (m : Mode) (sz : Z * Z) (color : Color.RGBA) : Image Pixels :=
  mkImage m (fst sz) (snd sz) (px_solid env m sz color).

(** [Image.alpha_composite(im1, im2)]: RGBA, the size of [im1]. *)
Definition alpha_composite (im1 im2 : Image Pixels) : Py.result (Image Pixels) :=
  let* px := px_alpha_composite env im1 im2 in
  Py.ok (mkImage RGBA (width im1) (height im1) px).

(** [ImageEnhance.Brightness(img).enhance(factor)] and the same for
    [Contrast]: same mode and size. *)
Definition enhance_brightness (img : Image Pixels) (factor : Q) : Py.result (Image Pixels) :=
  let* px := px_brightness env img factor in
  Py.ok (mkImage (mode img) (width img) (height img) px).

Definition enhance_contrast (img : Image Pixels) (factor : Q) : Py.result (Image Pixels) :=
  let* px := px_contrast env img factor in
  Py.ok (mkImage (mode img) (width img) (height img) px).

End Operations.

End Pil.

(** ** The photo pipeline ([process_photo.py]) *)

Module ProcessPhoto.

Import Pil.

Record Options : Type := mkOptions {
  bg_color : PyVal.value;
  face_scale : Q;
  brightness : Q;
  contrast : Q;
  enhance_quality : bool;
  crop_data : option (gmap string Z)      (* None, or the dict *)
}.

(** The keyword defaults; [face_scale] is the double nearest 2.2. *)
Definition default_options : Options := {|
  bg_color := PyVal.VStr "white";
  face_scale := 2476979795053773 # 1125899906842624;
  brightness := 1;
  contrast := 1;
  enhance_quality := true;
  crop_data := None
|}.

(** [if crop_data:] is false for [None] and for the empty dict. *)
Definition truthy (d : option (gmap string Z)) : bool :=
  match d with
  | Some m => negb (bool_decide (m = ∅))
  | None => false
  end.

(** [d.get(key, fallback)] *)
Definition get (d : gmap string Z) (key : string) (fallback : Z) : Z :=
  default fallback (d !! key).

(** The sort key [f[2] * f[3]]: the faces are rows of the detector's numpy
    [int32] array, so the product wraps to 32 bits. *)
Definition area (f : CropGeometry.BBox) : Z :=
  let '(_, _, w, h) := f in Py.int32_mul w h.

(** The area in pixels that the key stands for. *)
Definition pixel_area (f : CropGeometry.BBox) : Z :=
  let '(_, _, w, h) := f in w * h.

(** [sorted(faces, key=lambda f: f[2] * f[3], reverse=True)[0]]: the sort is
    stable, so this is the first face of maximal key. *)
Definition largest_face (first : CropGeometry.BBox) (rest : list CropGeometry.BBox)
  : CropGeometry.BBox :=
  fold_left (fun best f => if area best <? area f then f else best) rest first.

Section Pipeline.

Context {Pixels : Type} (env : Env Pixels).

(** [detect_face_bbox_cv2]: [None] when nothing is found or anything fails. *)
Definition detect_face_bbox_cv2 (gray : Pixels) : option CropGeometry.BBox :=
  match cv2_detect_multi_scale env gray with
  | inl _ => None
  | inr [] => None
  | inr (f :: rest) => Some (largest_face f rest)
  end.

Definition crop_centered_square_from_bbox
    (img_pil : Image Pixels) (bbox : CropGeometry.BBox) (scale : Q)
  : Py.result (Image Pixels) :=
  let* box := CropGeometry.crop_box (width img_pil) (height img_pil) bbox scale in
  crop env img_pil box.

(** [remove_background_rembg] *)
Definition remove_background_rembg (img : Image Pixels) : Py.result (Image Pixels) :=
  if negb (REMBG_AVAILABLE env) then convert env img RGBA
  else
    Py.try_except
      (let* result := rembg_remove env img in convert env result RGBA)
      (fun _ => convert env img RGBA).

(** [enhance_image_quality]: on a failure the function returns [img] as it
    stands then, the brightened image if the contrast step failed. *)
Definition enhance_image_quality (img : Image Pixels) (brightness contrast : Q)
  : Image Pixels :=
  match (if negb (Qeq_bool brightness 1) then enhance_brightness env img brightness
         else Py.ok img) with
  | inl _ => img
  | inr img1 =>
      match (if negb (Qeq_bool contrast 1) then enhance_contrast env img1 contrast
             else Py.ok img1) with
      | inl _ => img1
      | inr img2 => img2
      end
  end.

(** Step 1 with [crop_data] (lines 205-216). *)
Definition manual_crop (img : Image Pixels) (d : gmap string Z)
  : Py.result (Image Pixels) :=
  let x := get d "x" 0 in
  let y := get d "y" 0 in
  let width_ := get d "width" (Z.min (width img) (height img)) in
  let height_ := get d "height" (Z.min (width img) (height img)) in
  let rotation := get d "rotation" 0 in
  let* img := if negb (rotation =? 0) then rotate env img (- rotation) else Py.ok img in
  crop env img (x, y, x + width_, y + height_).

(** Step 1 without it (lines 219-232). *)
Definition auto_crop (img : Image Pixels) (face_scale : Q) : Py.result (Image Pixels) :=
  let* gray := cv2_gray env img in
  match detect_face_bbox_cv2 gray with
  | None =>
      let side := Z.min (width img) (height img) in
      let left_ := (width img - side) / 2 in
      let top_ := (height img - side) / 2 in
      crop env img (left_, top_, left_ + side, top_ + side)
  | Some bbox => crop_centered_square_from_bbox img bbox face_scale
  end.

(** Step 1: [if crop_data: ... else: ...]. *)
Definition crop_step (img : Image Pixels) (o : Options) : Py.result (Image Pixels) :=
  if truthy (crop_data o) then manual_crop img (default ∅ (crop_data o))
  else auto_crop img (face_scale o).

(** The body of the outer [try] (lines 197-253). *)
Definition pipeline (pil_img : Image Pixels) (o : Options) : Py.result (Image Pixels) :=
  let* img := convert env pil_img RGBA in
  let* cropped := crop_step img o in
  let* fg_with_alpha := remove_background_rembg cropped in
  let* bg_rgba := Color._parse_color (bg_color o) in
  let background := new env RGBA (size fg_with_alpha) bg_rgba in
  let* composed := alpha_composite env background fg_with_alpha in
  let* final_rgb := convert env composed RGB in
  let final_rgb :=
    if enhance_quality o then enhance_image_quality final_rgb (brightness o) (contrast o)
    else final_rgb in
  resize env final_rgb (600, 600).

(** The first handler's own [try] (line 261). *)
Definition emergency_fallback (pil_img : Image Pixels) : Py.result (Image Pixels) :=
  let* rgb := convert env pil_img RGB in
  resize env rgb (600, 600).

(** [Image.new('RGB', (600, 600), (255, 255, 255))] *)
Definition blank_white : Image Pixels := new env RGB (600, 600) Color.white.

Definition process_passport_photo (pil_img : Image Pixels) (o : Options) : Image Pixels :=
  match pipeline pil_img o with
  | inr final => final
  | inl _ =>
      match emergency_fallback pil_img with
      | inr fallback => fallback
      | inl _ => blank_white
      end
  end.

End Pipeline.

End ProcessPhoto.

(** ** Sheet layout and document emission ([a4_generator.py]) *)

Module A4.

Import Pil.

Definition A4_WIDTH_PX : Z := 2480.
Definition A4_HEIGHT_PX : Z := 3508.
Definition A4_SIZE_PX : Z * Z := (A4_WIDTH_PX, A4_HEIGHT_PX).
Definition PASSPORT_SIZE_PX : Z := 600.

(** [calculate_grid_layout]: [(cols, rows, x_offset, y_offset)]. *)
Definition calculate_grid_layout (a4_size : Z * Z) (photo_size margin spacing : Z)
  : Py.result (Z * Z * Z * Z) :=
  let '(canvas_width, canvas_height) := a4_size in
  let available_width := canvas_width - 2 * margin in
  let available_height := canvas_height - 2 * margin in
  let* cols := Py.floordiv (available_width + spacing) (photo_size + spacing) in
  let* rows := Py.floordiv (available_height + spacing) (photo_size + spacing) in
  let cols := Z.max 1 cols in
  let rows := Z.max 1 rows in
  let total_grid_width := cols * photo_size + (cols - 1) * spacing in
  let total_grid_height := rows * photo_size + (rows - 1) * spacing in
  let x_offset := (canvas_width - total_grid_width) / 2 in
  let y_offset := (canvas_height - total_grid_height) / 2 in
  Py.ok (cols, rows, x_offset, y_offset).

(** The sheet bitmap, by what was drawn on it: the photos pasted, in order,
    each with its top-left corner, and the guide lines. *)
Record Sheet (Pixels : Type) : Type := mkSheet {
  sheet_size : Z * Z;
  pasted : list (Image Pixels * (Z * Z));
  guides : list ((Z * Z) * (Z * Z))
}.

Arguments mkSheet {Pixels} _ _ _.
Arguments sheet_size {Pixels} _.
Arguments pasted {Pixels} _.
Arguments guides {Pixels} _.

(** What comes back in the [BytesIO] buffer. *)
Inductive Document (Pixels : Type) : Type :=
| SheetPdf (sheet : Sheet Pixels)   (* one A4 page filled by the sheet *)
| ErrorPdf                          (* one A4 page with the error string *)
| EmptyBuffer.                      (* nothing was written *)

Arguments SheetPdf {Pixels} _.
Arguments ErrorPdf {Pixels}.
Arguments EmptyBuffer {Pixels}.

(** What [Canvas.drawInlineImage] is handed as its image: a PIL image, or
    the [io.BytesIO] a PNG was saved to (a file name is not used here). *)
Inductive InlineImage (Pixels : Type) : Type :=
| PilImage (bitmap : Sheet Pixels)
| BytesIO (png : Sheet Pixels).

Arguments PilImage {Pixels} _.
Arguments BytesIO {Pixels} _.

(** The photos placed on the page of a document. *)
Definition placed_photos {Pixels} (d : Document Pixels) : list (Image Pixels * (Z * Z)) :=
  match d with
  | SheetPdf sheet => pasted sheet
  | ErrorPdf | EmptyBuffer => []
  end.

(** A saved one-page PDF, as opposed to an empty buffer. *)
Definition is_pdf {Pixels} (d : Document Pixels) : bool :=
  match d with
  | SheetPdf _ | ErrorPdf => true
  | EmptyBuffer => false
  end.

(** [range(a, b)] *)
Definition range (a b : Z) : list Z := seqZ a (b - a).

Section Sheets.

Context {Pixels : Type} (env : Env Pixels).

Definition paste (sheet : Sheet Pixels) (photo : Image Pixels) (at_ : Z * Z) : Sheet Pixels :=
  mkSheet (sheet_size sheet) (pasted sheet ++ [(photo, at_)]) (guides sheet).

(** [create_empty_pdf] *)
Definition create_empty_pdf : Document Pixels :=
  if pdf_error_page_ok env then ErrorPdf else EmptyBuffer.

(** [image.save(img_buffer, format='PNG', dpi=(300, 300))]: the buffer then
    holds the bitmap. *)
Definition save_png (image : Sheet Pixels) : Py.result (Sheet Pixels) :=
  if pdf_page_ok env then Py.ok image else Py.raise (Py.LibraryError 4).

(** [pdf_canvas.drawInlineImage(image, 0, 0, pdf_width, pdf_height)] and
    [pdf_canvas.save()]; the result is the bitmap on the page.  ReportLab
    opens a [str] as a file and takes anything else for a PIL image, of
    which it first reads [image.format]: an [io.BytesIO] has no such
    attribute, so for it the call raises [AttributeError]. *)
Definition drawInlineImage (image : InlineImage Pixels) : Py.result (Sheet Pixels) :=
  match image with
  | PilImage bitmap =>
      if pdf_page_ok env then Py.ok bitmap else Py.raise (Py.LibraryError 4)
  | BytesIO _ => Py.raise Py.AttributeError
  end.

(** [create_pdf_from_image]: the PNG is saved to [img_buffer], and it is
    [img_buffer] that line 278 draws. *)
Definition create_pdf_from_image (image : Sheet Pixels) : Document Pixels :=
  let body :=
    let* img_buffer := save_png image in
    let* page := drawInlineImage (BytesIO img_buffer) in
    Py.ok (SheetPdf page) in
  match body with
  | inr document => document
  | inl _ => create_empty_pdf
  end.

(** [add_cutting_guides]: the vertical lines, then the horizontal ones. *)
Definition add_cutting_guides (sheet : Sheet Pixels) (cols rows x_offset y_offset spacing : Z)
  : Sheet Pixels :=
  let vertical :=
    map (fun col =>
           let x := x_offset + col * (PASSPORT_SIZE_PX + spacing) - spacing / 2 in
           ((x, y_offset - 10),
            (x, y_offset + rows * (PASSPORT_SIZE_PX + spacing) - spacing + 10)))
        (range 1 cols) in
  let horizontal :=
    map (fun row =>
           let y := y_offset + row * (PASSPORT_SIZE_PX + spacing) - spacing / 2 in
           ((x_offset - 10, y),
            (x_offset + cols * (PASSPORT_SIZE_PX + spacing) - spacing + 10, y)))
        (range 1 rows) in
  mkSheet (sheet_size sheet) (pasted sheet) (guides sheet ++ vertical ++ horizontal).

(** [photo = img.copy(); if photo.size != (600, 600): photo = photo.resize(...)] *)
Definition ensure_passport_size (img : Image Pixels) : Py.result (Image Pixels) :=
  let photo := img in
  if negb (bool_decide (size photo = (PASSPORT_SIZE_PX, PASSPORT_SIZE_PX)))
  then resize env photo (PASSPORT_SIZE_PX, PASSPORT_SIZE_PX)
  else Py.ok photo.

(** [x + PASSPORT_SIZE_PX <= A4_WIDTH_PX and y + PASSPORT_SIZE_PX <= A4_HEIGHT_PX] *)
Definition fits (x y : Z) : bool :=
  (x + PASSPORT_SIZE_PX <=? A4_WIDTH_PX) && (y + PASSPORT_SIZE_PX <=? A4_HEIGHT_PX).

(** [for col in range(cols): ...] of [make_a4_sheet], with its [break]; the
    loop state is the sheet and [photos_placed]. *)
Fixpoint place_row (photo : Image Pixels) (copies x_offset y_offset spacing row : Z)
    (cols : list Z) (st : Sheet Pixels * Z) : Sheet Pixels * Z :=
  match cols with
  | [] => st
  | col :: cols' =>
      let '(sheet, photos_placed) := st in
      if copies <=? photos_placed then st
      else
        let x := x_offset + col * (PASSPORT_SIZE_PX + spacing) in
        let y := y_offset + row * (PASSPORT_SIZE_PX + spacing) in
        let st' := if fits x y then (paste sheet photo (x, y), photos_placed + 1) else st in
        place_row photo copies x_offset y_offset spacing row cols' st'
  end.

(** [for row in range(rows): ...], with the [break] after the inner loop. *)
Fixpoint place_rows (photo : Image Pixels) (copies x_offset y_offset spacing : Z)
    (cols rows : list Z) (st : Sheet Pixels * Z) : Sheet Pixels * Z :=
  match rows with
  | [] => st
  | row :: rows' =>
      let st' := place_row photo copies x_offset y_offset spacing row cols st in
      if copies <=? snd st' then st'
      else place_rows photo copies x_offset y_offset spacing cols rows' st'
  end.

(** The body of the [try] of [make_a4_sheet] up to the finished bitmap. *)
Definition draw_sheet (passport_img : Image Pixels) (copies margin spacing : Z)
    (add_cut_lines : bool) : Py.result (Sheet Pixels) :=
  let* photo := ensure_passport_size passport_img in
  let sheet := mkSheet A4_SIZE_PX [] [] in
  let* (cols, rows, x_offset, y_offset) :=
    calculate_grid_layout A4_SIZE_PX PASSPORT_SIZE_PX margin spacing in
  let '(sheet, photos_placed) :=
    place_rows photo copies x_offset y_offset spacing (range 0 cols) (range 0 rows)
               (sheet, 0) in
  let sheet :=
    if add_cut_lines then add_cutting_guides sheet cols rows x_offset y_offset spacing
    else sheet in
  Py.ok sheet.

Definition make_a4_sheet (passport_img : Image Pixels) (copies margin spacing : Z)
    (add_cut_lines : bool) : Document Pixels :=
  match draw_sheet passport_img copies margin spacing add_cut_lines with
  | inr sheet => create_pdf_from_image sheet
  | inl _ => create_empty_pdf
  end.

(** The loop state of [make_a4_sheet_multiple]: the sheet, [photos_placed]
    and [photo_index].  The resize inside the loop can raise. *)
Definition MState : Type := Sheet Pixels * Z * nat.

Fixpoint place_row_multiple (passport_images : list (Image Pixels))
    (x_offset y_offset spacing row : Z) (cols : list Z) (st : MState) : Py.result MState :=
  match cols with
  | [] => Py.ok st
  | col :: cols' =>
      let '(sheet, photos_placed, photo_index) := st in
      match nth_error passport_images photo_index with
      | None => Py.ok st                  (* photo_index >= len(passport_images) *)
      | Some image =>
          let x := x_offset + col * (PASSPORT_SIZE_PX + spacing) in
          let y := y_offset + row * (PASSPORT_SIZE_PX + spacing) in
          let* st' :=
            if fits x y then
              let* photo := ensure_passport_size image in
              Py.ok (paste sheet photo (x, y), photos_placed + 1, S photo_index)
            else Py.ok st in
          place_row_multiple passport_images x_offset y_offset spacing row cols' st'
      end
  end.

Fixpoint place_rows_multiple (passport_images : list (Image Pixels))
    (x_offset y_offset spacing : Z) (cols rows : list Z) (st : MState) : Py.result MState :=
  match rows with
  | [] => Py.ok st
  | row :: rows' =>
      let* st' := place_row_multiple passport_images x_offset y_offset spacing row cols st in
      if (length passport_images <=? snd st')%nat then Py.ok st'
      else place_rows_multiple passport_images x_offset y_offset spacing cols rows' st'
  end.

(** The body of the [try] of [make_a4_sheet_multiple] for a non-empty
    list, up to the finished bitmap. *)
Definition draw_sheet_multiple (passport_images : list (Image Pixels))
    (margin spacing : Z) (add_cut_lines : bool) : Py.result (Sheet Pixels) :=
  let sheet := mkSheet A4_SIZE_PX [] [] in
  let* (cols, rows, x_offset, y_offset) :=
    calculate_grid_layout A4_SIZE_PX PASSPORT_SIZE_PX margin spacing in
  let* (sheet, photos_placed, photo_index) :=
    place_rows_multiple passport_images x_offset y_offset spacing
                        (range 0 cols) (range 0 rows) (sheet, 0, 0%nat) in
  let sheet :=
    if add_cut_lines then add_cutting_guides sheet cols rows x_offset y_offset spacing
    else sheet in
  Py.ok sheet.

Definition make_a4_sheet_multiple (passport_images : list (Image Pixels))
    (margin spacing : Z) (add_cut_lines : bool) : Document Pixels :=
  match passport_images with
  | [] => create_empty_pdf                       (* if not passport_images *)
  | _ =>
      match draw_sheet_multiple passport_images margin spacing add_cut_lines with
      | inr sheet => create_pdf_from_image sheet
      | inl _ => create_empty_pdf
      end
  end.

End Sheets.

End A4.

(** ** An environment in which every collaborator succeeds *)

Module Nominal.

Import Pil.

Definition env : Env unit := {|
  px_convert := fun _ _ => Py.ok tt;
  px_resize := fun _ _ => Py.ok tt;
  px_rotate := fun img _ => Py.ok (height img, width img, tt);
  px_crop := fun _ _ => Py.ok tt;
  px_solid := fun _ _ _ => tt;
  px_alpha_composite := fun _ _ => Py.ok tt;
  px_brightness := fun _ _ => Py.ok tt;
  px_contrast := fun _ _ => Py.ok tt;
  cv2_gray := fun _ => Py.ok tt;
  cv2_detect_multi_scale := fun _ => Py.ok [];
  REMBG_AVAILABLE := false;
  rembg_remove := fun img => Py.ok img;
  pdf_page_ok := true;
  pdf_error_page_ok := true
|}.

Definition photo (m : Mode) (w h : Z) : Image unit := mkImage m w h tt.

(** The same with rembg importable and with injected failures:
    [Image.convert] raises unless [convert_works], [Image.alpha_composite]
    unless [composite_works], the face detector and rembg always do. *)
Definition faulty (convert_works composite_works : bool) : Env unit := {|
  px_convert := fun _ _ => if convert_works then Py.ok tt else Py.raise (Py.LibraryError 1);
  px_resize := fun _ _ => Py.ok tt;
  px_rotate := fun img _ => Py.ok (height img, width img, tt);
  px_crop := fun _ _ => Py.ok tt;
  px_solid := fun _ _ _ => tt;
  px_alpha_composite :=
    fun _ _ => if composite_works then Py.ok tt else Py.raise Py.ValueError;
  px_brightness := fun _ _ => Py.ok tt;
  px_contrast := fun _ _ => Py.ok tt;
  cv2_gray := fun _ => Py.ok tt;
  cv2_detect_multi_scale := fun _ => Py.raise (Py.LibraryError 2);
  REMBG_AVAILABLE := true;
  rembg_remove := fun _ => Py.raise (Py.LibraryError 3);
  pdf_page_ok := true;
  pdf_error_page_ok := true
|}.

End Nominal.

(** ** Image validation ([validate_image], lines 315-341) *)

Module Validation.

Import Pil.

Section Validate.

Context {Pixels : Type}.

(** [np.std(np.array(img.convert('RGB')))], which may raise, and [str(e)]. *)
Variable np_std : Image Pixels -> Py.result Q.
Variable str_of_exn : Py.exn -> string.

Definition validate_image (img : Image Pixels) : bool * string :=
  let body : Py.result (bool * string) :=
    if (width img <? 200) || (height img <? 200) then
      Py.ok (false, "Image too small. Minimum 200x200 pixels required."%string)
    else if (4000 <? width img) || (4000 <? height img) then
      Py.ok (false, "Image too large. Maximum 4000x4000 pixels allowed."%string)
    else
      let* sd := np_std img in
      if negb (Qle_bool 10 sd) then
        Py.ok (false, "Image appears to be blank or has very low contrast."%string)
      else Py.ok (true, ""%string) in
  match body with
  | inr r => r
  | inl e => (false, String.append "Image validation error: " (str_of_exn e))
  end.

End Validate.

End Validation.

(** ** Helpers for stating the layout and colour properties *)

Module Grid.

Import Pil A4.

(** The top-left corners of the grid cells in row-major order, as the two
    loops of [make_a4_sheet] compute them. *)
Definition cells (x_offset y_offset spacing : Z) (cols rows : list Z) : list (Z * Z) :=
  map (fun rc : Z * Z =>
         (x_offset + snd rc * (PASSPORT_SIZE_PX + spacing),
          y_offset + fst rc * (PASSPORT_SIZE_PX + spacing)))
      (list_prod rows cols).

(** Two 600 x 600 photos pasted at [p] and [q] share no pixel. *)
Definition disjoint (p q : Z * Z) : Prop :=
  PASSPORT_SIZE_PX <= Z.abs (fst p - fst q) \/ PASSPORT_SIZE_PX <= Z.abs (snd p - snd q).

(** A photo pasted at [p] lies inside the A4 canvas. *)
Definition inside_canvas (p : Z * Z) : Prop :=
  0 <= fst p /\ fst p + PASSPORT_SIZE_PX <= A4_WIDTH_PX /\
  0 <= snd p /\ snd p + PASSPORT_SIZE_PX <= A4_HEIGHT_PX.

Section LoopStates.

Context {Pixels : Type} (env : Env Pixels).

(** The sheet after some more [paste] calls. *)
Definition with_pasted (sheet : Sheet Pixels) (extra : list (Image Pixels * (Z * Z)))
  : Sheet Pixels :=
  mkSheet (sheet_size sheet) (pasted sheet ++ extra) (guides sheet).

(** What the loops of [make_a4_sheet] keep true of their state: only
    [photo] is pasted, only where the bounds check passed, [photos_placed]
    counts the pastes and never exceeds [copies]. *)
Definition placed_ok (photo : Image Pixels) (copies : Z) (st : Sheet Pixels * Z) : Prop :=
  Forall (fun placed => fst placed = photo /\
                        fits (fst (snd placed)) (snd (snd placed)) = true)
         (pasted (fst st)) /\
  snd st = Z.of_nat (length (pasted (fst st))) /\
  snd st <= Z.max 0 copies.

(** What the loops of [make_a4_sheet_multiple] keep true of their state:
    the pastes are the first [photo_index] images, in order, each brought
    to the passport size and pasted where the bounds check passed. *)
Definition in_order (images : list (Image Pixels)) (st : MState) : Prop :=
  Forall2 (fun image placed =>
             ensure_passport_size env image = inr (fst placed) /\
             fits (fst (snd placed)) (snd (snd placed)) = true)
          (take (snd st) images) (pasted (fst (fst st))) /\
  (snd st <= length images)%nat /\
  snd (fst st) = Z.of_nat (snd st).

End LoopStates.

End Grid.

Module Hex.

(** A hexadecimal digit and its value. *)
Definition hex_digit (c : ascii) : option Z :=
  match PyStr.digit_value c with
  | Some d => if d <? 16 then Some d else None
  | None => None
  end.

Definition all_ascii : list ascii := map ascii_of_nat (seq 0 256).

End Hex.

(** ** Letter case and white space in the words of the colour claim *)

Module SpecTokens.

Local Open Scope N_scope.

(** The claim speaks of tokens that differ in letter case or in surrounding
    white space.  Both notions are written here on code points, without
    [PyStr.lower] and [PyStr.strip], so that the resolver is compared with
    them and not with itself.  A capital is A-Z or a Latin-1 capital
    (U+00C0-U+00DE without the multiplication sign); its small letter lies
    32 code points above it. *)
Definition capital (n : N) : bool :=
  ((65 <=? n) && (n <=? 90)) || ((192 <=? n) && (n <=? 214))
  || ((216 <=? n) && (n <=? 222)).

Definition same_letter (c d : ascii) : bool :=
  let m := N_of_ascii c in
  let n := N_of_ascii d in
  (m =? n) || (capital m && (n =? m + 32)) || (capital n && (m =? n + 32)).

Fixpoint same_token (s t : string) : bool :=
  match s, t with
  | EmptyString, EmptyString => true
  | String c s', String d t' => same_letter c d && same_token s' t'
  | _, _ => false
  end.

(** White space: tab, line feed, vertical tab, form feed, carriage return,
    the separators U+001C-U+001F, the blank, NEL and the no-break space. *)
Definition blanks : list ascii :=
  [ "009"; "010"; "011"; "012"; "013"; "028"; "029"; "030"; "031"; " ";
    "133"; "160" ]%char.

Fixpoint blank (s : string) : bool :=
  match s with
  | EmptyString => true
  | String c s' => existsb (Ascii.eqb c) blanks && blank s'
  end.

End SpecTokens.

(** ** The HTTP endpoints that call the pipeline ([main.py]) *)

Module Main.

Import Pil.

(** An uploaded file: its declared type, the length of its contents and
    what [Image.open(io.BytesIO(contents))] gives. *)
Record Upload (Pixels : Type) : Type := mkUpload {
  content_type : string;
  content_length : Z;
  opened : Py.result (Image Pixels)
}.

Arguments mkUpload {Pixels} _ _ _.
Arguments content_type {Pixels} _.
Arguments content_length {Pixels} _.
Arguments opened {Pixels} _.

(** What an endpoint answers: an [HTTPException], or the JSON payload with
    the PDF or the PNG images behind the data URIs. *)
Inductive Response (Pixels : Type) : Type :=
| HttpError (status : Z) (detail : string)
| PdfResponse (doc : A4.Document Pixels) (count : Z)
| PngResponse (images : list (Image Pixels)).

Arguments HttpError {Pixels} _ _.
Arguments PdfResponse {Pixels} _ _.
Arguments PngResponse {Pixels} _.

(** [crop_data] as [/process] builds it from the optional form fields
    (lines 115-123); [crop_rotation or 0], the rotation in whole degrees as
    in [ProcessPhoto.Options]. *)
Definition crop_data_of_form (crop_x crop_y crop_width crop_height crop_rotation : option Z)
  : option (gmap string Z) :=
  match crop_x, crop_y, crop_width, crop_height with
  | Some x, Some y, Some w, Some h =>
      Some {[ "x"%string := x; "y"%string := y; "width"%string := w; "height"%string := h;
              "rotation"%string := default 0 crop_rotation ]}
  | _, _, _, _ => None
  end.

Definition MAX_SIZE : Z := 8 * 1024 * 1024.

Section Endpoints.

Context {Pixels : Type} (env : Env Pixels).

(** [img.save(buffer, format='PNG', dpi=(300, 300))] succeeds. *)
Variable png_ok : Image Pixels -> bool.
Variable str_of_exn : Py.exn -> string.

(** [POST /process] (lines 65-168). *)
Definition process_photo (file : Upload Pixels) (bg_color : string) (make_a4 : bool)
    (face_scale : Q) (crop_x crop_y crop_width crop_height crop_rotation : option Z)
  : Response Pixels :=
  if negb (PyStr.startswith "image/"%string (content_type file)) then
    HttpError 400 "File must be an image (JPG, PNG, etc.)"%string
  else if MAX_SIZE <? content_length file then
    HttpError 400 "File size too large. Maximum 8MB allowed."%string
  else
    let body : Py.result (Response Pixels) :=
      let* image := opened file in
      let* image :=
        match mode image with
        | RGB | RGBA => Py.ok image
        | _ => convert env image RGBA
        end in
      let crop_data := crop_data_of_form crop_x crop_y crop_width crop_height crop_rotation in
      let result_img :=
        ProcessPhoto.process_passport_photo env image
          (ProcessPhoto.mkOptions (PyVal.VStr bg_color) face_scale 1 1 true crop_data) in
      if make_a4 then
        Py.ok (PdfResponse (A4.make_a4_sheet env result_img 12 60 30 true) 12)
      else if png_ok result_img then Py.ok (PngResponse [result_img])
      else Py.raise (Py.LibraryError 0) in
    match body with
    | inr response => response
    | inl e => HttpError 500 (String.append "Image processing failed: " (str_of_exn e))
    end.

(** The loop of [/batch-process] over the files (lines 192-203): other
    content types and files that fail to open are skipped. *)
Fixpoint batch_loop (files : list (Upload Pixels)) (bg_color : string)
    (processed_images : list (Image Pixels)) : list (Image Pixels) :=
  match files with
  | [] => processed_images
  | file :: files' =>
      if negb (PyStr.startswith "image/"%string (content_type file)) then
        batch_loop files' bg_color processed_images
      else
        match (let* image := opened file in convert env image RGBA) with
        | inr image =>
            let result_img :=
              ProcessPhoto.process_passport_photo env image
                (ProcessPhoto.mkOptions (PyVal.VStr bg_color)
                   (ProcessPhoto.face_scale ProcessPhoto.default_options) 1 1 true None) in
            batch_loop files' bg_color (processed_images ++ [result_img])
        | inl _ => batch_loop files' bg_color processed_images
        end
  end.

(** [POST /batch-process] (lines 170-247).  A failing PNG save in the
    last branch is not caught by the endpoint. *)
Definition batch_process_photos (files : list (Upload Pixels)) (bg_color : string)
    (make_a4 : bool) : Py.result (Response Pixels) :=
  if (10 <? length files)%nat then
    Py.ok (HttpError 400 "Maximum 10 files allowed in batch processing"%string)
  else
    let processed_images := batch_loop files bg_color [] in
    match processed_images with
    | [] => Py.ok (HttpError 400 "No valid images could be processed"%string)
    | _ =>
        if make_a4 then
          Py.ok (PdfResponse (A4.make_a4_sheet_multiple env processed_images 60 30 true)
                             (Z.of_nat (length processed_images)))
        else if forallb png_ok processed_images then Py.ok (PngResponse processed_images)
        else Py.raise (Py.LibraryError 0)
    end.

End Endpoints.

End Main.

(** * Properties *)

(** ** The error monad *)

Module PyFacts.

(** A sequence of steps that returns has returned from its first step. *)
Lemma bind_inr {A B} (m : Py.result A) (k : A -> Py.result B) (b : B) :
  Py.bind m k = inr b -> exists a, m = inr a /\ k a = inr b.
Proof. destruct m; [discriminate | eauto]. Qed.

Lemma bind_inl {A B} (m : Py.result A) (k : A -> Py.result B) (e : Py.exn) :
  m = inl e -> Py.bind m k = inl e.
Proof. intros ->. reflexivity. Qed.

End PyFacts.

(** ** Crop geometry *)

Module CropFacts.

Import CropGeometry.

Ltac div_lia := Z.div_mod_to_equations; lia.

Ltac norm_den :=
  rewrite ?Pos.mul_1_l in *; change (2 * 2)%positive with 4%positive in *.

Ltac split_ifs :=
  repeat match goal with
         | |- context [if ?b then _ else _] => destruct b eqn:?
         end.

Example crop_box_800x600 :
  crop_box 800 600 (300, 200, 100, 120) 2 = Py.ok (230, 140, 470, 380).
Proof. reflexivity. Qed.

Example crop_box_corner :
  crop_box 200 200 (0, 0, 50, 50) 2 = Py.ok (0, 0, 100, 100).
Proof. reflexivity. Qed.

(** The product is a binary64 product: [10 * 0.7] is [7.0] although the
    double 0.7 lies below 7/10, and [120 * 2.2] is [264.0]. *)
Example crop_size_rounded_product :
  crop_size 10 10 (3152519739159347 # 4503599627370496) = Py.ok 7 /\
  Qfloor (10 * (3152519739159347 # 4503599627370496)) = 6 /\
  crop_size 100 120 (2476979795053773 # 1125899906842624) = Py.ok 264.
Proof. repeat split; reflexivity. Qed.

(** A scale of [2^1020], about 1.1e307, takes the product of a 120-pixel
    face beyond the double range: [int()] raises and nothing is cropped. *)
Example crop_size_overflow :
  crop_size 100 120 (inject_Z (2 ^ 1020)) = Py.raise Py.OverflowError /\
  crop_box 800 600 (300, 200, 100, 120) (inject_Z (2 ^ 1020)) = Py.raise Py.OverflowError.
Proof. split; vm_compute; reflexivity. Qed.

Lemma int_of_float_nonneg (q : Q) :
  0 <= Qnum q -> Py.int_of_float q = Qnum q / Z.pos (Qden q).
Proof.
  intros Hq. unfold Py.int_of_float. apply Z.quot_div_nonneg; lia.
Qed.

Lemma int_of_float_floor (q : Q) :
  0 <= Qnum q -> Py.int_of_float q = Qfloor q.
Proof.
  intros Hq. rewrite int_of_float_nonneg by assumption. destruct q; reflexivity.
Qed.

(** Rounding to nearest never exceeds truncation by more than one. *)
Lemma round_le_succ_int (q : Q) :
  0 <= Qnum q -> Py.round q <= Py.int_of_float q + 1.
Proof.
  intros Hq. rewrite int_of_float_floor by assumption.
  unfold Py.round. destruct (Qcompare _ _); [destruct (Z.even _) | |]; lia.
Qed.

Lemma round_nonneg (q : Q) : 0 <= Qnum q -> 0 <= Py.round q.
Proof.
  intros Hq.
  assert (Hf : 0 <= Qfloor q) by (destruct q; apply Z.div_pos; simpl in *; lia).
  unfold Py.round. destruct (Qcompare _ _); [destruct (Z.even _) | |]; lia.
Qed.

(** Rounding to binary64 keeps the sign. *)
Lemma binary64_nonneg (q : Q) : 0 <= Qnum q -> 0 <= Qnum (Py.binary64 q).
Proof.
  intros Hq. unfold Py.binary64.
  destruct (Qnum q) as [| p | p] eqn:Hn; [reflexivity | | lia].
  cbv zeta. change (0 <? Z.pos p) with true. cbv iota.
  match goal with |- context [Py.round ?a] => pose proof (round_nonneg a) as Hm end.
  destruct (0 <=? _) eqn:He.
  - cbn [Qnum inject_Z] in *. apply Z.mul_nonneg_nonneg; [apply Hm; simpl; lia |].
    apply Z.pow_nonneg; lia.
  - cbn [Qnum] in *. apply Hm. apply Z.mul_nonneg_nonneg; [lia |].
    apply Z.pow_nonneg; lia.
Qed.

Lemma scaled_extent_nonneg (w h : Z) (scale : Q) :
  0 < w -> 0 < h -> (0 < scale)%Q ->
  0 <= Qnum (Py.binary64 (inject_Z (Z.max w h) * scale)).
Proof.
  intros Hw Hh Hs. apply binary64_nonneg. unfold Qlt in Hs. simpl in *. nia.
Qed.

(** When [crop_size] returns, it returns the truncated binary64 product. *)
Lemma crop_size_inv (w h : Z) (scale : Q) (cs : Z) :
  crop_size w h scale = Py.ok cs ->
  cs = Py.int_of_float (Py.binary64 (inject_Z (Z.max w h) * scale)).
Proof.
  unfold crop_size, Py.float_of_int, Py.fmul, Py.int.
  destruct (Py.overflows (inject_Z (Z.max w h))); [discriminate |].
  cbn [Py.bind Py.ok]. destruct (Py.overflows _); [discriminate |].
  intros [= <-]. reflexivity.
Qed.

(** It raises nothing but [OverflowError]. *)
Lemma crop_size_raises (w h : Z) (scale : Q) (e : Py.exn) :
  crop_size w h scale = inl e -> e = Py.OverflowError.
Proof.
  unfold crop_size, Py.float_of_int, Py.fmul, Py.int.
  destruct (Py.overflows (inject_Z (Z.max w h))); [intros [= <-]; reflexivity |].
  cbn [Py.bind Py.ok]. destruct (Py.overflows _); [intros [= <-]; reflexivity | discriminate].
Qed.

Lemma crop_size_nonneg (w h : Z) (scale : Q) (cs : Z) :
  0 < w -> 0 < h -> (0 < scale)%Q -> crop_size w h scale = Py.ok cs -> 0 <= cs.
Proof.
  intros Hw Hh Hs Hcs. apply crop_size_inv in Hcs. subst cs.
  rewrite int_of_float_nonneg.
  - apply Z.div_pos; [apply scaled_extent_nonneg; assumption | lia].
  - apply scaled_extent_nonneg; assumption.
Qed.

Lemma spec_crop_size_le_succ (w h : Z) (scale : Q) (cs : Z) :
  0 < w -> 0 < h -> (0 < scale)%Q -> crop_size w h scale = Py.ok cs ->
  spec_crop_size w h scale <= cs + 1.
Proof.
  intros Hw Hh Hs Hcs. apply crop_size_inv in Hcs. subst cs.
  apply round_le_succ_int, scaled_extent_nonneg; assumption.
Qed.

(** The float expression of the near edge, in integers. *)
Lemma near_edge_eq (x w cs : Z) :
  Py.int_of_float (Qmax (inject_Z x + inject_Z w / 2 - inject_Z cs / 2) 0)
  = Z.max 0 ((2 * x + w - cs) / 2).
Proof.
  unfold Qmax, GenericMinMax.gmax.
  destruct (Qcompare _ 0) eqn:Hc; unfold Qcompare in Hc; simpl in Hc; norm_den.
  - apply Z.compare_eq in Hc.
    rewrite int_of_float_nonneg; simpl; norm_den; div_lia.
  - rewrite Z.compare_lt_iff in Hc. change (Py.int_of_float 0) with 0. div_lia.
  - rewrite Z.compare_gt_iff in Hc.
    rewrite int_of_float_nonneg; simpl; norm_den; div_lia.
Qed.

Lemma axis_eq (dim x w cs : Z) :
  axis dim x w cs =
  let lo := Z.max 0 ((2 * x + w - cs) / 2) in
  let hi := Z.min (lo + cs) dim in
  if hi - lo <? cs then
    if lo =? 0 then (lo, Z.min cs dim) else (Z.max 0 (hi - cs), hi)
  else (lo, hi).
Proof. unfold axis. rewrite near_edge_eq. reflexivity. Qed.

(** [crop_box] is [crop_size] followed by the two axes. *)
Lemma crop_box_axes (width height x y w h : Z) (scale : Q) :
  crop_box width height (x, y, w, h) scale =
  let* cs := crop_size w h scale in
  Py.ok (fst (axis width x w cs), fst (axis height y h cs),
         snd (axis width x w cs), snd (axis height y h cs)).
Proof.
  unfold crop_box. destruct (crop_size w h scale) as [e | cs]; [reflexivity |].
  cbn [Py.bind]. unfold axis. cbv zeta. split_ifs; reflexivity.
Qed.

(** One axis when the crop size fits the image: a window of exactly [cs]
    pixels inside [0, dim], within a pixel of the box centre when the
    centred window fits. *)
Lemma axis_fits (dim x w cs : Z) :
  1 <= cs <= dim ->
  snd (axis dim x w cs) - fst (axis dim x w cs) = cs /\
  0 <= fst (axis dim x w cs) < snd (axis dim x w cs) /\
  snd (axis dim x w cs) <= dim /\
  (0 <= 2 * x + w - cs -> 2 * x + w + cs <= 2 * dim ->
   Z.abs ((2 * fst (axis dim x w cs) + cs) - (2 * x + w)) <= 2).
Proof.
  intros Hcs. rewrite axis_eq. cbv zeta. split_ifs; simpl; div_lia.
Qed.

(** One axis when the crop size reaches the image extent. *)
Lemma axis_degenerate (dim x w cs : Z) :
  0 <= dim <= cs -> axis dim x w cs = (0, dim).
Proof.
  intros Hcs. rewrite axis_eq. cbv zeta. split_ifs; f_equal; div_lia.
Qed.

(** The extent of the region on one axis is the crop size, cut to the image. *)
Lemma axis_extent (dim x w cs : Z) :
  0 <= dim -> 0 <= cs ->
  snd (axis dim x w cs) - fst (axis dim x w cs) = Z.min cs dim.
Proof.
  intros Hd Hcs. rewrite axis_eq. cbv zeta. split_ifs; simpl; div_lia.
Qed.

(** C2 (as amended).  With the crop size the code computes,
    [int(max(w, h) * scale)] (truncated, not rounded), whenever that size is
    at least 1 and at most both image dimensions, the crop region is a
    square of exactly that side, lies inside the image
    ([0 <= left < right <= width], [0 <= top < bottom <= height]), and on
    each axis where the window centred on the box fits in the image its
    centre is within one pixel of the box centre [(x + w/2, y + h/2)]
    (stated on doubled coordinates). *)
Theorem crop_region_square_contained_centered
    (width height x y w h : Z) (scale : Q) (cs : Z) :
  crop_size w h scale = Py.ok cs ->
  1 <= cs -> cs <= width -> cs <= height ->
  exists left_ top_ right_ bottom_,
    crop_box width height (x, y, w, h) scale = Py.ok (left_, top_, right_, bottom_) /\
    right_ - left_ = cs /\ bottom_ - top_ = cs /\
    (0 <= left_ < right_ /\ right_ <= width) /\
    (0 <= top_ < bottom_ /\ bottom_ <= height) /\
    (0 <= 2 * x + w - cs -> 2 * x + w + cs <= 2 * width ->
     Z.abs ((2 * left_ + cs) - (2 * x + w)) <= 2) /\
    (0 <= 2 * y + h - cs -> 2 * y + h + cs <= 2 * height ->
     Z.abs ((2 * top_ + cs) - (2 * y + h)) <= 2).
Proof.
  intros Hsize Hpos Hw Hh. rewrite crop_box_axes, Hsize. cbn [Py.bind].
  destruct (axis_fits width x w cs) as (Hx1 & Hx2 & Hx3 & Hx4); [lia |].
  destruct (axis_fits height y h cs) as (Hy1 & Hy2 & Hy3 & Hy4); [lia |].
  do 4 eexists. split; [reflexivity |].
  repeat split; try lia; assumption.
Qed.

Lemma crop_region_square_contained_centered_witness :
  exists left_ top_ right_ bottom_,
    crop_box 800 600 (300, 200, 100, 120) 2 = Py.ok (left_, top_, right_, bottom_) /\
    right_ - left_ = 240 /\ bottom_ - top_ = 240 /\
    (0 <= left_ < right_ /\ right_ <= 800) /\
    (0 <= top_ < bottom_ /\ bottom_ <= 600) /\
    (0 <= 2 * 300 + 100 - 240 -> 2 * 300 + 100 + 240 <= 2 * 800 ->
     Z.abs ((2 * left_ + 240) - (2 * 300 + 100)) <= 2) /\
    (0 <= 2 * 200 + 120 - 240 -> 2 * 200 + 120 + 240 <= 2 * 600 ->
     Z.abs ((2 * top_ + 240) - (2 * 200 + 120)) <= 2).
Proof.
  apply (crop_region_square_contained_centered 800 600 300 200 100 120 2 240);
    [reflexivity | lia | lia | lia].
Defined.

(** C2 as the spec words it fails twice.  With [round]: a 101-pixel box at
    scale 1.75 gives 176.75, which rounds to 177 while the code crops 176
    pixels.  With a crop size of 0 (a 1-pixel box at scale 0.25) the region
    is empty, so [left < right] fails. *)
Lemma crop_region_spec_counterexample :
  ~ (0 < 101 -> 0 < 101 -> (0 < 7 # 4)%Q ->
     spec_crop_size 101 101 (7 # 4) <= 1000 ->
     spec_crop_size 101 101 (7 # 4) <= 1000 ->
     exists left_ top_ right_ bottom_,
       crop_box 1000 1000 (400, 400, 101, 101) (7 # 4)
       = Py.ok (left_, top_, right_, bottom_) /\
       right_ - left_ = spec_crop_size 101 101 (7 # 4) /\
       bottom_ - top_ = spec_crop_size 101 101 (7 # 4) /\
       (0 <= left_ < right_ /\ right_ <= 1000) /\
       (0 <= top_ < bottom_ /\ bottom_ <= 1000))
  /\
  ~ (0 < 1 -> 0 < 1 -> (0 < 1 # 4)%Q ->
     spec_crop_size 1 1 (1 # 4) <= 100 ->
     spec_crop_size 1 1 (1 # 4) <= 100 ->
     exists left_ top_ right_ bottom_,
       crop_box 100 100 (10, 10, 1, 1) (1 # 4) = Py.ok (left_, top_, right_, bottom_) /\
       right_ - left_ = spec_crop_size 1 1 (1 # 4) /\
       bottom_ - top_ = spec_crop_size 1 1 (1 # 4) /\
       (0 <= left_ < right_ /\ right_ <= 100) /\
       (0 <= top_ < bottom_ /\ bottom_ <= 100)).
Proof.
  split; intros H.
  - assert (Hc : spec_crop_size 101 101 (7 # 4) = 177) by reflexivity.
    assert (Hb : crop_box 1000 1000 (400, 400, 101, 101) (7 # 4)
                 = Py.ok (362, 362, 538, 538)) by reflexivity.
    rewrite Hc, Hb in H.
    destruct H as (l & t & r & b & [= <- <- <- <-] & H & _);
      [lia | lia | reflexivity | lia | lia | lia].
  - assert (Hc : spec_crop_size 1 1 (1 # 4) = 0) by reflexivity.
    assert (Hb : crop_box 100 100 (10, 10, 1, 1) (1 # 4)
                 = Py.ok (10, 10, 10, 10)) by reflexivity.
    rewrite Hc, Hb in H.
    destruct H as (l & t & r & b & [= <- <- <- <-] & _ & _ & H & _);
      [lia | lia | reflexivity | lia | lia | lia].
Qed.

(** C6 (as amended).  Whenever the product [max(w, h) * scale] stays within
    the double range, so that [crop_size = int(max(w, h) * scale)] is
    computed, and this truncated size reaches an image dimension (as it
    does whenever [round(max(w, h) * scale)] exceeds the dimension), the
    region spans that axis in full, [0] to the image extent, and the
    function computes it without raising.  The two extents are
    [min(crop_size, width)] and [min(crop_size, height)], so squareness is
    lost exactly when these differ: always when the truncated size exceeds
    one dimension only, and when it exceeds both unless the image is
    square. *)
Theorem crop_region_degenerate
    (width height x y w h : Z) (scale : Q) (cs : Z) :
  0 <= width -> 0 <= height -> 0 < w -> 0 < h -> (0 < scale)%Q ->
  crop_size w h scale = Py.ok cs ->
  exists left_ top_ right_ bottom_,
    crop_box width height (x, y, w, h) scale = Py.ok (left_, top_, right_, bottom_) /\
    (width < spec_crop_size w h scale -> left_ = 0 /\ right_ = width) /\
    (height < spec_crop_size w h scale -> top_ = 0 /\ bottom_ = height) /\
    (width <= cs -> left_ = 0 /\ right_ = width) /\
    (height <= cs -> top_ = 0 /\ bottom_ = height) /\
    right_ - left_ = Z.min cs width /\
    bottom_ - top_ = Z.min cs height /\
    (width < cs <= height -> right_ - left_ < bottom_ - top_) /\
    (height < cs <= width -> bottom_ - top_ < right_ - left_) /\
    (width < cs -> height < cs -> (right_ - left_ = bottom_ - top_ <-> width = height)).
Proof.
  intros Hw0 Hh0 Hw Hh Hs Hsize.
  pose proof (spec_crop_size_le_succ w h scale cs Hw Hh Hs Hsize) as Hround.
  pose proof (crop_size_nonneg w h scale cs Hw Hh Hs Hsize) as Hcs.
  rewrite crop_box_axes, Hsize. cbn [Py.bind].
  pose proof (axis_extent width x w cs Hw0 Hcs) as Ex.
  pose proof (axis_extent height y h cs Hh0 Hcs) as Ey.
  assert (Hx : width <= cs -> axis width x w cs = (0, width))
    by (intros; apply axis_degenerate; lia).
  assert (Hy : height <= cs -> axis height y h cs = (0, height))
    by (intros; apply axis_degenerate; lia).
  do 4 eexists. split; [reflexivity |].
  repeat match goal with |- _ /\ _ => split end.
  - intros H. rewrite Hx by lia. split; reflexivity.
  - intros H. rewrite Hy by lia. split; reflexivity.
  - intros H. rewrite Hx by lia. split; reflexivity.
  - intros H. rewrite Hy by lia. split; reflexivity.
  - exact Ex.
  - exact Ey.
  - intros H. lia.
  - intros H. lia.
  - intros H1 H2. lia.
Qed.

Lemma crop_region_degenerate_witness :
  exists left_ top_ right_ bottom_,
    crop_box 100 300 (20, 20, 30, 30) 4 = Py.ok (left_, top_, right_, bottom_) /\
    (100 < spec_crop_size 30 30 4 -> left_ = 0 /\ right_ = 100) /\
    (300 < spec_crop_size 30 30 4 -> top_ = 0 /\ bottom_ = 300) /\
    (100 <= 120 -> left_ = 0 /\ right_ = 100) /\
    (300 <= 120 -> top_ = 0 /\ bottom_ = 300) /\
    right_ - left_ = Z.min 120 100 /\
    bottom_ - top_ = Z.min 120 300 /\
    (100 < 120 <= 300 -> right_ - left_ < bottom_ - top_) /\
    (300 < 120 <= 100 -> bottom_ - top_ < right_ - left_) /\
    (100 < 120 -> 300 < 120 -> (right_ - left_ = bottom_ - top_ <-> 100 = 300)).
Proof.
  apply (crop_region_degenerate 100 300 20 20 30 30 4 120);
    [lia | lia | lia | lia | reflexivity | reflexivity].
Defined.

(** When only the rounded product exceeds a dimension the truncated size
    equals it: a 503-pixel face at the double nearest 0.2 gives 100.6, so
    [round] is 101 and [int] is 100.  On a 100 x 200 image the region spans
    the width and is 100 pixels high: still a square. *)
Example crop_region_rounded_only :
  spec_crop_size 503 503 (3602879701896397 # 18014398509481984) = 101 /\
  crop_size 503 503 (3602879701896397 # 18014398509481984) = Py.ok 100 /\
  crop_box 100 200 (0, 0, 503, 503) (3602879701896397 # 18014398509481984)
  = Py.ok (0, 100, 100, 200).
Proof. repeat split; reflexivity. Qed.

(** C6 as the spec words it fails in two ways.  On a square image smaller
    than the crop size, 100 x 100 with a 120-pixel crop, the whole image is
    the region, which is square.  And "for every scale" it is not true that
    nothing is raised: at a scale of [2^1020] the product overflows and
    [int()] raises [OverflowError]. *)
Lemma crop_region_degenerate_counterexample :
  ~ (0 < 30 -> 0 < 30 -> (0 < 4)%Q ->
     100 < spec_crop_size 30 30 4 ->
     exists left_ top_ right_ bottom_,
       crop_box 100 100 (20, 20, 30, 30) 4 = Py.ok (left_, top_, right_, bottom_) /\
       (left_ = 0 /\ right_ = 100) /\ right_ - left_ <> bottom_ - top_)
  /\
  ~ (0 < 30 -> 0 < 30 -> (0 < inject_Z (2 ^ 1020))%Q ->
     100 < spec_crop_size 30 30 (inject_Z (2 ^ 1020)) ->
     exists region,
       crop_box 100 100 (20, 20, 30, 30) (inject_Z (2 ^ 1020)) = Py.ok region).
Proof.
  split; intros H.
  - assert (Hb : crop_box 100 100 (20, 20, 30, 30) 4 = Py.ok (0, 0, 100, 100))
      by reflexivity.
    rewrite Hb in H.
    destruct H as (l & t & r & b & [= <- <- <- <-] & _ & H);
      [lia | lia | reflexivity | reflexivity | lia].
  - assert (Hb : crop_box 100 100 (20, 20, 30, 30) (inject_Z (2 ^ 1020))
                 = Py.raise Py.OverflowError) by (vm_compute; reflexivity).
    rewrite Hb in H.
    destruct H as (region & H);
      [lia | lia | reflexivity | vm_compute; reflexivity | discriminate H].
Qed.

End CropFacts.

(** ** Colour resolution *)

Module ColorFacts.

Import PyStr PyVal Color.

Local Open Scope string_scope.

Example parse_named : _parse_color (VStr "blue") = Py.ok (0, 102, 204, 255).
Proof. reflexivity. Qed.

Example parse_hex_upper : _parse_color (VStr "#FF5733") = Py.ok (255, 87, 51, 255).
Proof. reflexivity. Qed.

Example parse_unknown : _parse_color (VStr "not-a-color") = Py.ok white.
Proof. reflexivity. Qed.

Example parse_tuple_alpha :
  _parse_color (VTuple [VInt 100; VInt 150; VInt 200; VInt 128])
  = Py.ok (100, 150, 200, 128).
Proof. reflexivity. Qed.

Example parse_list_rgb : _parse_color (VList [VInt 0; VInt 255; VInt 0]) = Py.ok (0, 255, 0, 255).
Proof. reflexivity. Qed.

Example parse_wrong_type : _parse_color VNone = Py.ok white /\ _parse_color (VInt 123) = Py.ok white.
Proof. split; reflexivity. Qed.

(** [int(s, base)] raises nothing but [ValueError]. *)
Lemma int_of_str_raises (base : Z) (s : string) (e : Py.exn) :
  int_of_str base s = inl e -> e = Py.ValueError.
Proof.
  unfold int_of_str.
  repeat match goal with
         | |- context [match ?x with _ => _ end] => destruct x
         end; unfold Py.ok, Py.raise; congruence.
Qed.

Lemma parse_hex_raises (c : string) (e : Py.exn) :
  parse_hex c = inl e -> e = Py.ValueError.
Proof.
  unfold parse_hex, Py.bind.
  destruct (int_of_str 16 (slice c 1 3)) eqn:H1; [intros [= <-]; eauto using int_of_str_raises |].
  destruct (int_of_str 16 (slice c 3 5)) eqn:H2; [intros [= <-]; eauto using int_of_str_raises |].
  destruct (int_of_str 16 (slice c 5 7)) eqn:H3; [intros [= <-]; eauto using int_of_str_raises |].
  discriminate.
Qed.

(** On a string the resolver always returns a colour. *)
Lemma parse_color_str_returns (s : string) :
  exists c, _parse_color (VStr s) = Py.ok c.
Proof.
  cbn. unfold resolve_token.
  destruct (named_colors !! _) as [[[r g] b] |]; [eauto |].
  destruct (_ && _); [| eauto].
  destruct (parse_hex _) as [e | c] eqn:H; [| eauto].
  apply parse_hex_raises in H. subst e. eauto.
Qed.

(** Case folding leaves white space alone. *)
Lemma isspace_lower_char (c : ascii) : isspace (lower_char c) = isspace c.
Proof. destruct c as [[] [] [] [] [] [] [] []]; reflexivity. Qed.

Lemma lower_char_idempotent (c : ascii) : lower_char (lower_char c) = lower_char c.
Proof. destruct c as [[] [] [] [] [] [] [] []]; reflexivity. Qed.

Lemma lstrip_lower (s : string) : lstrip (lower s) = lower (lstrip s).
Proof.
  induction s as [| c s IH]; [reflexivity |].
  cbn. rewrite isspace_lower_char. destruct (isspace c); [exact IH | reflexivity].
Qed.

Lemma rstrip_lower (s : string) : rstrip (lower s) = lower (rstrip s).
Proof.
  induction s as [| c s IH]; [reflexivity |].
  cbn. rewrite IH, isspace_lower_char.
  destruct (rstrip s); cbn; [destruct (isspace c) |]; reflexivity.
Qed.

Lemma strip_lower (s : string) : strip (lower s) = lower (strip s).
Proof. unfold strip. rewrite lstrip_lower, rstrip_lower. reflexivity. Qed.

Lemma lower_idempotent (s : string) : lower (lower s) = lower s.
Proof.
  induction s as [| c s IH]; [reflexivity |].
  cbn. rewrite lower_char_idempotent, IH. reflexivity.
Qed.

Lemma lstrip_all_space (s : string) : all_space s = true -> lstrip s = "".
Proof.
  induction s as [| c s IH]; [reflexivity |].
  cbn. destruct (isspace c); [exact IH | discriminate].
Qed.

Lemma rstrip_all_space (s : string) : all_space s = true -> rstrip s = "".
Proof.
  induction s as [| c s IH]; [reflexivity |].
  cbn. destruct (isspace c); [| discriminate].
  intros H. rewrite (IH H). reflexivity.
Qed.

Lemma lstrip_app_space (pre s : string) :
  all_space pre = true -> lstrip (pre ++ s) = lstrip s.
Proof.
  induction pre as [| c pre IH]; [reflexivity |].
  change (String c pre ++ s) with (String c (pre ++ s)).
  cbn. destruct (isspace c); [exact IH | discriminate].
Qed.

Lemma rstrip_app_space (s post : string) :
  all_space post = true -> rstrip (s ++ post) = rstrip s.
Proof.
  intros H. induction s as [| c s IH].
  - apply rstrip_all_space, H.
  - change (String c s ++ post) with (String c (s ++ post)).
    cbn. rewrite IH. reflexivity.
Qed.

Lemma strip_app_space (pre s post : string) :
  all_space pre = true -> all_space post = true ->
  strip (pre ++ s ++ post) = strip s.
Proof.
  intros Hpre Hpost. unfold strip. rewrite lstrip_app_space by assumption.
  clear pre Hpre. induction s as [| c s IH].
  - change ("" ++ post) with post.
    rewrite lstrip_all_space by assumption. reflexivity.
  - change (String c s ++ post) with (String c (s ++ post)).
    cbn [lstrip]. destruct (isspace c); [exact IH |].
    apply (rstrip_app_space (String c s) post Hpost).
Qed.

(** C3.  The resolver is meant to fall back to opaque white on anything it
    cannot parse and never to raise; the code misses that in two places.
    [int(s, 16)] accepts a sign and blanks, so a malformed hex string such
    as ["#-1-1-1"] or ["# 1 2+3"] is not rejected and yields channels that
    are not white (and, with the sign, not 8-bit).  The list/tuple branch
    calls [int()] outside any [try], so items that are not numbers raise
    [ValueError] or [TypeError]; its channels are not range-checked. *)
Theorem parse_color_failing_inputs :
  _parse_color (VStr "#-1-1-1") = Py.ok (-1, -1, -1, 255) /\
  valid_rgba (-1, -1, -1, 255) = false /\
  _parse_color (VStr "# 1 2+3") = Py.ok (1, 2, 3, 255) /\
  _parse_color (VTuple [VStr "red"; VStr "green"; VStr "blue"]) = Py.raise Py.ValueError /\
  _parse_color (VTuple [VNone; VInt 0; VInt 0]) = Py.raise Py.TypeError /\
  _parse_color (VTuple [VInt 300; VInt 0; VInt 0]) = Py.ok (300, 0, 0, 255) /\
  valid_rgba (300, 0, 0, 255) = false.
Proof. repeat split; reflexivity. Qed.

Lemma in_all_ascii (c : ascii) : In c Hex.all_ascii.
Proof.
  assert (H : existsb (Ascii.eqb c) Hex.all_ascii = true)
    by (destruct c as [[] [] [] [] [] [] [] []]; vm_compute; reflexivity).
  apply existsb_exists in H as (c' & Hin & Heq).
  apply Ascii.eqb_eq in Heq. subst. exact Hin.
Qed.

(** Every pair of code points, checked one by one: two spellings of one
    letter are lower-cased to the same code point. *)
Lemma same_letter_checked :
  forallb (fun c => forallb (fun d =>
    implb (SpecTokens.same_letter c d) (Ascii.eqb (lower_char c) (lower_char d)))
    Hex.all_ascii) Hex.all_ascii = true.
Proof. vm_compute. reflexivity. Qed.

Lemma same_letter_lower (c d : ascii) :
  SpecTokens.same_letter c d = true -> lower_char c = lower_char d.
Proof.
  intros Hcd. pose proof same_letter_checked as H.
  rewrite forallb_forall in H. specialize (H c (in_all_ascii c)).
  rewrite forallb_forall in H. specialize (H d (in_all_ascii d)).
  rewrite Hcd in H. apply Ascii.eqb_eq, H.
Qed.

Lemma same_token_lower (s t : string) :
  SpecTokens.same_token s t = true -> lower s = lower t.
Proof.
  revert t. induction s as [| c s IH]; intros [| d t] H; try discriminate H.
  - reflexivity.
  - cbn in H. apply andb_prop in H as [Hcd Hst].
    cbn. rewrite (same_letter_lower c d Hcd), (IH t Hst). reflexivity.
Qed.

(** Every blank is white space to [str.strip]. *)
Lemma blanks_checked :
  forallb (fun c => implb (existsb (Ascii.eqb c) SpecTokens.blanks) (isspace c))
          Hex.all_ascii = true.
Proof. vm_compute. reflexivity. Qed.

Lemma blank_all_space (s : string) : SpecTokens.blank s = true -> all_space s = true.
Proof.
  induction s as [| c s IH]; [reflexivity |].
  cbn [SpecTokens.blank all_space]. intros H. apply andb_prop in H as [Hc Hs].
  pose proof blanks_checked as Hall. rewrite forallb_forall in Hall.
  specialize (Hall c (in_all_ascii c)). rewrite Hc in Hall. cbn [implb] in Hall.
  rewrite Hall, (IH Hs). reflexivity.
Qed.

(** C9.  A string token is stripped and lower-cased before the palette
    lookup and the hex parse.  So a token resolves the same when some of
    its letters are written in the other case, capital for small or small
    for capital, and when white space is put before or after it. *)
Theorem parse_color_case_and_space_invariant (s s' pre post : string) :
  SpecTokens.blank pre = true -> SpecTokens.blank post = true ->
  SpecTokens.same_token s' s = true ->
  _parse_color (VStr (pre ++ s' ++ post)) = _parse_color (VStr s).
Proof.
  intros Hpre Hpost Hcase. apply blank_all_space in Hpre, Hpost.
  apply same_token_lower in Hcase. cbn. f_equal.
  rewrite strip_app_space by assumption.
  rewrite <- !strip_lower. rewrite Hcase. reflexivity.
Qed.

(** The claim's two examples, and tokens that do not resolve to the default:
    a padded upper-case [BLUE] is blue, and a mixed-case [Light_Blue] between
    a tab and a line feed is light blue. *)
Lemma parse_color_case_and_space_invariant_witness :
  _parse_color (VStr " WHITE ") = _parse_color (VStr "white") /\
  _parse_color (VStr "#FF5733") = _parse_color (VStr "#ff5733") /\
  _parse_color (VStr "  BLUE ") = Py.ok (0, 102, 204, 255) /\
  _parse_color (VStr (String "009" "" ++ "Light_BLUE" ++ String "010" ""))
  = Py.ok (173, 216, 230, 255).
Proof.
  split; [| split; [| split]].
  - apply (parse_color_case_and_space_invariant "white" "WHITE" " " " ");
      reflexivity.
  - apply (parse_color_case_and_space_invariant "#ff5733" "#FF5733" "" "");
      reflexivity.
  - transitivity (_parse_color (VStr "blue")); [| reflexivity].
    apply (parse_color_case_and_space_invariant "blue" "BLUE" "  " " ");
      reflexivity.
  - transitivity (_parse_color (VStr "light_blue")); [| reflexivity].
    apply (parse_color_case_and_space_invariant "light_blue" "Light_BLUE"
             (String "009" "") (String "010" ""));
      reflexivity.
Defined.

End ColorFacts.

(** ** The photo pipeline *)

Module ProcessPhotoFacts.

Import Pil ProcessPhoto PyFacts.

Section Facts.

Context {Pixels : Type} (env : Env Pixels).

Lemma convert_ok (img r : Image Pixels) (m : Mode) :
  convert env img m = inr r -> mode r = m /\ size r = size img.
Proof.
  unfold convert, Py.bind. destruct (px_convert env img m); [discriminate |].
  intros [= <-]. split; reflexivity.
Qed.

Lemma resize_ok (img r : Image Pixels) (sz : Z * Z) :
  resize env img sz = inr r -> mode r = mode img /\ size r = sz.
Proof.
  unfold resize, Py.bind. destruct (px_resize env img sz); [discriminate |].
  intros [= <-]. destruct sz. split; reflexivity.
Qed.

Lemma crop_ok (img r : Image Pixels) (left_ top_ right_ bottom_ : Z) :
  crop env img (left_, top_, right_, bottom_) = inr r ->
  mode r = mode img /\ size r = (right_ - left_, bottom_ - top_) /\
  px_crop env img (left_, top_, right_, bottom_) = inr (data r).
Proof.
  unfold crop, Py.bind. destruct (px_crop env img _); [discriminate |].
  intros [= <-]. repeat split; reflexivity.
Qed.

Lemma enhance_brightness_ok (img r : Image Pixels) (f : Q) :
  enhance_brightness env img f = inr r -> mode r = mode img /\ size r = size img.
Proof.
  unfold enhance_brightness, Py.bind. destruct (px_brightness env img f); [discriminate |].
  intros [= <-]. split; reflexivity.
Qed.

Lemma enhance_contrast_ok (img r : Image Pixels) (f : Q) :
  enhance_contrast env img f = inr r -> mode r = mode img /\ size r = size img.
Proof.
  unfold enhance_contrast, Py.bind. destruct (px_contrast env img f); [discriminate |].
  intros [= <-]. split; reflexivity.
Qed.

(** Enhancement, failed or not, keeps mode and size. *)
Lemma enhance_image_quality_mode (img : Image Pixels) (b c : Q) :
  mode (enhance_image_quality env img b c) = mode img /\
  size (enhance_image_quality env img b c) = size img.
Proof.
  unfold enhance_image_quality.
  destruct (if negb (Qeq_bool b 1) then _ else _) as [e | img1] eqn:H1; [split; reflexivity |].
  assert (Hm1 : mode img1 = mode img /\ size img1 = size img).
  { destruct (negb (Qeq_bool b 1)).
    - eapply enhance_brightness_ok, H1.
    - injection H1 as <-. split; reflexivity. }
  destruct (if negb (Qeq_bool c 1) then _ else _) as [e | img2] eqn:H2; [exact Hm1 |].
  destruct (negb (Qeq_bool c 1)).
  - apply enhance_contrast_ok in H2 as [? ?]. destruct Hm1. split; congruence.
  - injection H2 as <-. exact Hm1.
Qed.

Lemma pipeline_ok (pil_img final : Image Pixels) (o : Options) :
  pipeline env pil_img o = inr final ->
  size final = (600, 600) /\ mode final = RGB.
Proof.
  unfold pipeline. intros H.
  apply bind_inr in H as (img & _ & H).
  apply bind_inr in H as (cropped & _ & H).
  apply bind_inr in H as (fg & _ & H).
  apply bind_inr in H as (bg & _ & H).
  apply bind_inr in H as (composed & _ & H).
  apply bind_inr in H as (rgb & Hrgb & H).
  apply convert_ok in Hrgb as [Hmode _].
  apply resize_ok in H as [Hm Hs]. split; [exact Hs |].
  rewrite Hm. destruct (enhance_quality o); [| exact Hmode].
  rewrite (proj1 (enhance_image_quality_mode _ _ _)). exact Hmode.
Qed.

Lemma emergency_fallback_ok (pil_img fallback : Image Pixels) :
  emergency_fallback env pil_img = inr fallback ->
  size fallback = (600, 600) /\ mode fallback = RGB.
Proof.
  unfold emergency_fallback. intros H.
  apply bind_inr in H as (rgb & Hrgb & H).
  apply convert_ok in Hrgb as [Hmode _].
  apply resize_ok in H as [Hm Hs]. split; congruence.
Qed.

(** C1.  Whatever the image, the options and the failures of the
    collaborators, [process_passport_photo] returns an image, 600 x 600 in
    mode RGB (no alpha channel, so opaque).  When the pipeline raises, the
    result is the original input converted to RGB and resized to 600 x 600;
    when that raises as well, it is the blank white 600 x 600 image. *)
Theorem process_passport_photo_never_fails (pil_img : Image Pixels) (o : Options) :
  size (process_passport_photo env pil_img o) = (600, 600) /\
  mode (process_passport_photo env pil_img o) = RGB /\
  (forall e, pipeline env pil_img o = inl e ->
     (forall fallback,
        emergency_fallback env pil_img = inr fallback ->
        process_passport_photo env pil_img o = fallback /\
        exists rgb, convert env pil_img RGB = inr rgb /\
                    resize env rgb (600, 600) = inr fallback) /\
     (forall e', emergency_fallback env pil_img = inl e' ->
        process_passport_photo env pil_img o = new env RGB (600, 600) Color.white)).
Proof.
  unfold process_passport_photo.
  destruct (pipeline env pil_img o) as [e | final] eqn:Hp.
  - destruct (emergency_fallback env pil_img) as [e' | fallback] eqn:Hf.
    + split; [reflexivity |]. split; [reflexivity |].
      intros _ _. split; [intros fb Hfb; discriminate Hfb | intros; reflexivity].
    + destruct (emergency_fallback_ok _ _ Hf) as [Hs Hm].
      split; [exact Hs |]. split; [exact Hm |].
      intros _ _. split; [| intros e'' He; discriminate He].
      intros fb [= <-]. split; [reflexivity |].
      unfold emergency_fallback in Hf.
      apply bind_inr in Hf as (rgb & Hrgb & Hr). eauto.
  - destruct (pipeline_ok _ _ _ Hp) as [Hs Hm].
    split; [exact Hs |]. split; [exact Hm |]. intros e He; discriminate He.
Qed.

(** C7.  With brightness 1.0 and contrast 1.0 (any way of writing the
    number 1) both [!= 1.0] tests are false and neither enhancer is called:
    the function returns the image it was given, pixels included, whatever
    the enhancers would have done or raised. *)
Theorem enhance_image_quality_identity (img : Image Pixels) (brightness contrast : Q) :
  (brightness == 1)%Q -> (contrast == 1)%Q ->
  enhance_image_quality env img brightness contrast = img.
Proof.
  intros Hb Hc. unfold enhance_image_quality.
  apply Qeq_bool_iff in Hb. apply Qeq_bool_iff in Hc.
  rewrite Hb, Hc. reflexivity.
Qed.

Lemma truthy_nonempty (d : gmap string Z) : d <> ∅ -> truthy (Some d) = true.
Proof.
  intros Hne. unfold truthy. rewrite bool_decide_eq_false_2 by exact Hne. reflexivity.
Qed.

(** C10.  A manual crop request (a non-empty [crop_data] dict) is applied
    as given: the box handed to [crop] is [(x, y, x + width, y + height)],
    on the image rotated by [-rotation] when [rotation] is not 0, with no
    comparison against the image bounds, so the cropped image has size
    [(width, height)] even when the box reaches outside the image.  Missing
    fields default to [x = 0], [y = 0], [width = height = min(image width,
    image height)] (of the image before rotation) and [rotation = 0]. *)
Theorem manual_crop_literal (img : Image Pixels) (o : Options) (d : gmap string Z) :
  crop_data o = Some d -> d <> ∅ ->
  let x := default 0 (d !! "x"%string) in
  let y := default 0 (d !! "y"%string) in
  let width_ := default (Z.min (width img) (height img)) (d !! "width"%string) in
  let height_ := default (Z.min (width img) (height img)) (d !! "height"%string) in
  let rotation := default 0 (d !! "rotation"%string) in
  crop_step env img o =
    (let* img' := if rotation =? 0 then Py.ok img else rotate env img (- rotation) in
     crop env img' (x, y, x + width_, y + height_)) /\
  (forall cropped, crop_step env img o = inr cropped ->
     size cropped = (width_, height_) /\
     exists img',
       (if rotation =? 0 then img' = img else rotate env img (- rotation) = inr img') /\
       px_crop env img' (x, y, x + width_, y + height_) = inr (data cropped)).
Proof.
  intros Hd Hne x y width_ height_ rotation.
  assert (Hstep : crop_step env img o =
    (let* img' := if rotation =? 0 then Py.ok img else rotate env img (- rotation) in
     crop env img' (x, y, x + width_, y + height_))).
  { unfold crop_step. rewrite Hd, (truthy_nonempty d Hne).
    change (default ∅ (Some d)) with d.
    unfold manual_crop, get. subst x y width_ height_ rotation. cbv zeta.
    destruct (default 0 (d !! "rotation"%string) =? 0); reflexivity. }
  split; [exact Hstep |].
  intros cropped Hc. rewrite Hstep in Hc.
  apply bind_inr in Hc as (img' & Hrot & Hcrop).
  apply crop_ok in Hcrop as (_ & Hsize & Hpx).
  split.
  - rewrite Hsize. f_equal; lia.
  - exists img'. split; [| exact Hpx].
    destruct (rotation =? 0); [injection Hrot as <-; reflexivity | exact Hrot].
Qed.

End Facts.

Example process_nominal :
  process_passport_photo Nominal.env (Nominal.photo RGB 800 600) default_options
  = Nominal.photo RGB 600 600.
Proof. reflexivity. Qed.

(** A failing detector and a failing matting model are absorbed inside the
    pipeline: it still succeeds. *)
Example process_detector_and_matting_fail :
  pipeline (Nominal.faulty true true) (Nominal.photo RGB 800 600) default_options
  = inr (Nominal.photo RGB 600 600).
Proof. reflexivity. Qed.

Lemma enhance_image_quality_identity_witness :
  enhance_image_quality (Nominal.faulty false false) (Nominal.photo RGB 600 600) 1 1
  = Nominal.photo RGB 600 600 /\
  enhance_image_quality Nominal.env (Nominal.photo RGB 600 600) (2 # 2) (4 # 4)
  = Nominal.photo RGB 600 600.
Proof.
  split.
  - apply (enhance_image_quality_identity (Nominal.faulty false false)); reflexivity.
  - apply (enhance_image_quality_identity Nominal.env); reflexivity.
Defined.

(** The two tiers of the emergency fallback, each reached: compositing
    raises and the original is resized; every conversion raises and the
    blank image is returned. *)
Lemma process_passport_photo_never_fails_witness :
  (pipeline (Nominal.faulty true false) (Nominal.photo CMYK 800 600) default_options
   = inl Py.ValueError /\
   process_passport_photo (Nominal.faulty true false) (Nominal.photo CMYK 800 600)
     default_options = Nominal.photo RGB 600 600) /\
  (emergency_fallback (Nominal.faulty false false) (Nominal.photo CMYK 800 600)
   = inl (Py.LibraryError 1) /\
   process_passport_photo (Nominal.faulty false false) (Nominal.photo CMYK 800 600)
     default_options = new (Nominal.faulty false false) RGB (600, 600) Color.white).
Proof.
  split; (split; [reflexivity |]).
  - exact (proj1 (proj1 (proj2 (proj2
      (process_passport_photo_never_fails (Nominal.faulty true false)
         (Nominal.photo CMYK 800 600) default_options)) Py.ValueError eq_refl)
      (Nominal.photo RGB 600 600) eq_refl)).
  - exact (proj2 (proj2 (proj2
      (process_passport_photo_never_fails (Nominal.faulty false false)
         (Nominal.photo CMYK 800 600) default_options)) (Py.LibraryError 1) eq_refl)
      (Py.LibraryError 1) eq_refl).
Defined.

(** A box reaching outside an 800 x 600 image, and a request that names
    only the rotation. *)
Lemma manual_crop_literal_witness :
  let img := Nominal.photo RGBA 800 600 in
  let beyond : gmap string Z :=
    {[ "x"%string := 700; "y"%string := -50;
       "width"%string := 400; "height"%string := 300 ]} in
  let bare : gmap string Z := {[ "rotation"%string := 0 ]} in
  let request d := mkOptions (PyVal.VStr "white") 2 1 1 true (Some d) in
  (forall cropped,
     crop_step Nominal.env img (request beyond) = inr cropped ->
     size cropped = (400, 300)) /\
  crop_step Nominal.env img (request bare) = crop Nominal.env img (0, 0, 600, 600).
Proof.
  intros img beyond bare request.
  assert (Hbeyond : beyond <> ∅).
  { intros H. apply (f_equal (fun m => m !! "x"%string)) in H. discriminate H. }
  assert (Hbare : bare <> ∅).
  { intros H. apply (f_equal (fun m => m !! "rotation"%string)) in H. discriminate H. }
  split.
  - intros cropped Hc.
    exact (proj1 (proj2 (manual_crop_literal Nominal.env img (request beyond) beyond
                           eq_refl Hbeyond) cropped Hc)).
  - exact (proj1 (manual_crop_literal Nominal.env img (request bare) bare eq_refl Hbare)).
Defined.

End ProcessPhotoFacts.

(** ** Sheet layout *)

Module A4Facts.

Import Pil A4.

Example layout_small_canvas :
  calculate_grid_layout (800, 600) PASSPORT_SIZE_PX 10 5 = Py.ok (1, 1, 100, 0).
Proof. reflexivity. Qed.

(** C5 (as amended).  Whenever [photo_size + spacing] is not 0 (the division
    raises [ZeroDivisionError] otherwise), the planner returns
    [cols = max(1, (canvas_width - 2*margin + spacing) // (photo_size + spacing))]
    and the same for [rows], both at least 1, and the offsets
    [(canvas - (count*photo_size + (count-1)*spacing)) // 2] with floor
    division.  The offsets are not clamped: each is negative exactly when
    the grid is larger than the canvas on that axis, as for a 500 x 500
    canvas. *)
Theorem grid_layout_counts_and_offsets
    (canvas_width canvas_height photo_size margin spacing : Z) :
  photo_size + spacing <> 0 ->
  exists cols rows x_offset y_offset,
    calculate_grid_layout (canvas_width, canvas_height) photo_size margin spacing
    = Py.ok (cols, rows, x_offset, y_offset) /\
    1 <= cols /\ 1 <= rows /\
    cols = Z.max 1 ((canvas_width - 2 * margin + spacing) / (photo_size + spacing)) /\
    rows = Z.max 1 ((canvas_height - 2 * margin + spacing) / (photo_size + spacing)) /\
    x_offset = (canvas_width - (cols * photo_size + (cols - 1) * spacing)) / 2 /\
    y_offset = (canvas_height - (rows * photo_size + (rows - 1) * spacing)) / 2 /\
    (x_offset < 0 <-> canvas_width < cols * photo_size + (cols - 1) * spacing) /\
    (y_offset < 0 <-> canvas_height < rows * photo_size + (rows - 1) * spacing) /\
    calculate_grid_layout (500, 500) 600 60 30 = Py.ok (1, 1, -50, -50).
Proof.
  intros Hne. unfold calculate_grid_layout, Py.floordiv.
  destruct (photo_size + spacing =? 0) eqn:Hz; [lia |]. cbn [Py.bind Py.ok].
  do 4 eexists. split; [reflexivity |].
  repeat match goal with |- _ /\ _ => split end;
    try reflexivity; try lia.
  - set (g := _ * photo_size + _ * spacing). clearbody g.
    split; intros H; Z.div_mod_to_equations; lia.
  - set (g := _ * photo_size + _ * spacing). clearbody g.
    split; intros H; Z.div_mod_to_equations; lia.
Qed.

Lemma grid_layout_counts_and_offsets_witness :
  exists cols rows x_offset y_offset,
    calculate_grid_layout (2480, 3508) 600 60 30
    = Py.ok (cols, rows, x_offset, y_offset) /\
    1 <= cols /\ 1 <= rows /\
    cols = Z.max 1 ((2480 - 2 * 60 + 30) / (600 + 30)) /\
    rows = Z.max 1 ((3508 - 2 * 60 + 30) / (600 + 30)) /\
    x_offset = (2480 - (cols * 600 + (cols - 1) * 30)) / 2 /\
    y_offset = (3508 - (rows * 600 + (rows - 1) * 30)) / 2 /\
    (x_offset < 0 <-> 2480 < cols * 600 + (cols - 1) * 30) /\
    (y_offset < 0 <-> 3508 < rows * 600 + (rows - 1) * 30) /\
    calculate_grid_layout (500, 500) 600 60 30 = Py.ok (1, 1, -50, -50).
Proof.
  apply (grid_layout_counts_and_offsets 2480 3508 600 60 30). discriminate.
Defined.

(** C5 as the spec words it ("for every cell size and spacing") fails where
    [photo_size + spacing = 0]: nothing is returned. *)
Lemma grid_layout_zero_pitch_counterexample :
  ~ (exists cols rows x_offset y_offset,
       calculate_grid_layout (2480, 3508) 0 60 0
       = Py.ok (cols, rows, x_offset, y_offset) /\ 1 <= cols /\ 1 <= rows).
Proof. intros (cols & rows & xo & yo & H & _). discriminate H. Qed.

Section Facts.

Context {Pixels : Type} (env : Env Pixels).

(** With no copies requested the placement loops leave on their first test. *)
Lemma place_rows_zero_copies (photo : Image Pixels) (x_offset y_offset spacing : Z)
    (cols rows : list Z) (sheet : Sheet Pixels) :
  place_rows photo 0 x_offset y_offset spacing cols rows (sheet, 0) = (sheet, 0).
Proof.
  destruct rows as [| row rows]; [reflexivity |].
  cbn [place_rows]. destruct cols as [| col cols]; reflexivity.
Qed.

Lemma add_cutting_guides_pasted (sheet : Sheet Pixels) (cols rows x_offset y_offset spacing : Z) :
  pasted (add_cutting_guides sheet cols rows x_offset y_offset spacing) = pasted sheet /\
  sheet_size (add_cutting_guides sheet cols rows x_offset y_offset spacing) = sheet_size sheet.
Proof. split; reflexivity. Qed.

Lemma draw_sheet_zero_copies (img : Image Pixels) (margin spacing : Z)
    (add_cut_lines : bool) (sheet : Sheet Pixels) :
  draw_sheet env img 0 margin spacing add_cut_lines = inr sheet ->
  pasted sheet = [] /\ sheet_size sheet = A4_SIZE_PX.
Proof.
  unfold draw_sheet. intros H.
  apply PyFacts.bind_inr in H as (photo & _ & H).
  apply PyFacts.bind_inr in H as ([[[cols rows] xo] yo] & _ & H).
  rewrite place_rows_zero_copies in H. injection H as <-.
  destruct add_cut_lines; split; reflexivity.
Qed.

(** The PNG buffer is not something [drawInlineImage] can draw: the
    conversion always ends in its own handler. *)
Lemma create_pdf_from_image_fails (sheet : Sheet Pixels) :
  create_pdf_from_image env sheet = create_empty_pdf env.
Proof.
  unfold create_pdf_from_image, save_png. destruct (pdf_page_ok env); reflexivity.
Qed.

Lemma make_a4_sheet_error_page (img : Image Pixels) (copies margin spacing : Z)
    (add_cut_lines : bool) :
  make_a4_sheet env img copies margin spacing add_cut_lines = create_empty_pdf env.
Proof.
  unfold make_a4_sheet. destruct (draw_sheet _ _ _ _ _ _); [reflexivity |].
  apply create_pdf_from_image_fails.
Qed.

Lemma make_a4_sheet_multiple_error_page (images : list (Image Pixels)) (margin spacing : Z)
    (add_cut_lines : bool) :
  make_a4_sheet_multiple env images margin spacing add_cut_lines = create_empty_pdf env.
Proof.
  unfold make_a4_sheet_multiple. destruct images; [reflexivity |].
  destruct (draw_sheet_multiple _ _ _ _ _); [reflexivity |].
  apply create_pdf_from_image_fails.
Qed.

Lemma create_empty_pdf_no_photo : placed_photos (create_empty_pdf env) = [].
Proof. unfold create_empty_pdf. destruct (pdf_error_page_ok env); reflexivity. Qed.

(** C4.  On the A4 canvas with 600-pixel cells, margin 60 and spacing 30 the
    planner gives 3 columns and 5 rows (2360 and 3388 pixels available,
    2390 // 630 = 3 and 3418 // 630 = 5), 15 cells, centred at offset
    (310, 194), and the loop of [make_a4_sheet] with 12 copies pastes
    exactly 12 photos on the sheet bitmap, the first four rows of the grid
    in row-major order.  The document returned does not hold them:
    [create_pdf_from_image] hands the buffer of the saved PNG to
    [drawInlineImage], which raises, and [make_a4_sheet] returns what
    [create_empty_pdf] returns, with no photo placed. *)
Theorem default_sheet_photos_not_in_document (img : Image Pixels) (add_cut_lines : bool) :
  calculate_grid_layout A4_SIZE_PX PASSPORT_SIZE_PX 60 30 = Py.ok (3, 5, 310, 194) /\
  (A4_WIDTH_PX - 2 * 60 = 2360 /\ (2360 + 30) / (PASSPORT_SIZE_PX + 30) = 3) /\
  (A4_HEIGHT_PX - 2 * 60 = 3388 /\ (3388 + 30) / (PASSPORT_SIZE_PX + 30) = 5) /\
  3 * 5 = 15 /\
  (forall photo,
     ensure_passport_size env img = inr photo ->
     exists sheet,
       draw_sheet env img 12 60 30 add_cut_lines = inr sheet /\
       pasted sheet =
         map (fun at_ => (photo, at_))
             [ (310, 194); (940, 194); (1570, 194);
               (310, 824); (940, 824); (1570, 824);
               (310, 1454); (940, 1454); (1570, 1454);
               (310, 2084); (940, 2084); (1570, 2084) ]) /\
  make_a4_sheet env img 12 60 30 add_cut_lines = create_empty_pdf env /\
  placed_photos (make_a4_sheet env img 12 60 30 add_cut_lines) = [] /\
  length (placed_photos (make_a4_sheet env img 12 60 30 add_cut_lines)) <> 12%nat.
Proof.
  split; [reflexivity |]. split; [split; reflexivity |].
  split; [split; reflexivity |]. split; [reflexivity |].
  split.
  { intros photo Hphoto. unfold draw_sheet. rewrite Hphoto.
    cbn [Py.bind].
    change (calculate_grid_layout A4_SIZE_PX PASSPORT_SIZE_PX 60 30)
      with (Py.ok (A := Z * Z * Z * Z) (3, 5, 310, 194)).
    cbn [Py.bind Py.ok].
    destruct add_cut_lines; eexists; split; reflexivity. }
  rewrite make_a4_sheet_error_page, create_empty_pdf_no_photo.
  split; [reflexivity |]. split; [reflexivity | discriminate].
Qed.

(** C8.  With a working error page, [make_a4_sheet] with 0 copies and
    [make_a4_sheet_multiple] with an empty list each return a one-page PDF
    (never an empty buffer, never an exception) with no photo placed, for
    any margin and spacing: both return the fallback error page.  The sheet
    bitmap drawn for 0 copies, when the photo is prepared and the cell
    pitch is not 0, is the A4 canvas with nothing pasted on it. *)
Theorem zero_copies_and_empty_list (img : Image Pixels) (margin spacing : Z)
    (add_cut_lines : bool) :
  pdf_error_page_ok env = true ->
  is_pdf (make_a4_sheet env img 0 margin spacing add_cut_lines) = true /\
  placed_photos (make_a4_sheet env img 0 margin spacing add_cut_lines) = [] /\
  is_pdf (make_a4_sheet_multiple env [] margin spacing add_cut_lines) = true /\
  placed_photos (make_a4_sheet_multiple env [] margin spacing add_cut_lines) = [] /\
  make_a4_sheet_multiple env [] margin spacing add_cut_lines = ErrorPdf /\
  make_a4_sheet env img 0 margin spacing add_cut_lines = ErrorPdf /\
  (forall photo,
     ensure_passport_size env img = inr photo ->
     PASSPORT_SIZE_PX + spacing <> 0 ->
     exists sheet,
       draw_sheet env img 0 margin spacing add_cut_lines = inr sheet /\
       pasted sheet = [] /\ sheet_size sheet = A4_SIZE_PX).
Proof.
  intros Herr.
  assert (Hempty : create_empty_pdf env = ErrorPdf)
    by (unfold create_empty_pdf; rewrite Herr; reflexivity).
  rewrite make_a4_sheet_error_page, make_a4_sheet_multiple_error_page, Hempty.
  repeat match goal with |- _ /\ _ => split end; try reflexivity.
  intros photo Hphoto Hpitch.
  destruct (draw_sheet env img 0 margin spacing add_cut_lines) as [e | sheet] eqn:Hd.
  - exfalso. unfold draw_sheet in Hd. rewrite Hphoto in Hd. cbn [Py.bind] in Hd.
    unfold calculate_grid_layout, A4_SIZE_PX, Py.floordiv in Hd.
    destruct (PASSPORT_SIZE_PX + spacing =? 0) eqn:Hz; [lia |].
    cbn [Py.bind Py.ok] in Hd. rewrite place_rows_zero_copies in Hd. discriminate Hd.
  - exists sheet. split; [reflexivity |]. apply draw_sheet_zero_copies in Hd. exact Hd.
Qed.

End Facts.

(** The claim's own input: a 600 x 600 photo, 12 copies, every collaborator
    working.  Twelve photos are pasted on the bitmap and the document is
    the error page. *)
Example default_sheet_failing_input :
  (exists sheet,
     draw_sheet Nominal.env (Nominal.photo RGB 600 600) 12 60 30 true = inr sheet /\
     length (pasted sheet) = 12%nat) /\
  make_a4_sheet Nominal.env (Nominal.photo RGB 600 600) 12 60 30 true = ErrorPdf.
Proof. split; [eexists; split; reflexivity | reflexivity]. Qed.

Example mixed_sheet_three_photos :
  exists sheet,
    draw_sheet_multiple Nominal.env
      [Nominal.photo RGB 400 400; Nominal.photo RGB 600 600; Nominal.photo RGB 300 700]
      60 30 false = inr sheet /\
    pasted sheet
    = [ (Nominal.photo RGB 600 600, (310, 194));
        (Nominal.photo RGB 600 600, (940, 194));
        (Nominal.photo RGB 600 600, (1570, 194)) ].
Proof. eexists; split; reflexivity. Qed.

Example sheet_hundred_copies_fills_grid :
  exists sheet,
    draw_sheet Nominal.env (Nominal.photo RGB 600 600) 100 60 30 true = inr sheet /\
    length (pasted sheet) = 15%nat.
Proof. eexists; split; reflexivity. Qed.

Lemma zero_copies_and_empty_list_witness :
  is_pdf (make_a4_sheet Nominal.env (Nominal.photo RGB 600 600) 0 60 30 true) = true /\
  placed_photos (make_a4_sheet Nominal.env (Nominal.photo RGB 600 600) 0 60 30 true) = [] /\
  is_pdf (make_a4_sheet_multiple Nominal.env [] 60 30 true) = true /\
  placed_photos (make_a4_sheet_multiple Nominal.env [] 60 30 true) = [].
Proof.
  destruct (zero_copies_and_empty_list Nominal.env (Nominal.photo RGB 600 600) 60 30 true
              eq_refl) as (H1 & H2 & H3 & H4 & _).
  repeat split; assumption.
Defined.

End A4Facts.

(** * Further properties of the code around the claims *)

(** ** Face crop and centre crop *)

Module CropMore.
Import CropGeometry CropFacts Pil ProcessPhoto PyFacts.

(** One axis, any crop size: the window stays inside the image. *)
Lemma axis_inside (dim x w cs : Z) :
  0 <= dim -> 0 <= cs ->
  0 <= fst (axis dim x w cs) <= snd (axis dim x w cs) /\
  snd (axis dim x w cs) <= dim.
Proof.
  intros Hd Hcs. rewrite axis_eq. cbv zeta. split_ifs; simpl; div_lia.
Qed.

Section Facts.
Context {Pixels : Type} (env : Env Pixels).

(** X1.  For a box with positive sides and a positive scale the face crop
    has two outcomes.  When the product [max(w, h) * scale] is beyond the
    double range, [int()] raises [OverflowError] and nothing is cropped.
    Otherwise the region handed to [crop] lies inside the image bounds and
    measures [min(crop_size, width)] by [min(crop_size, height)], and so
    does the image [crop_centered_square_from_bbox] returns. *)
Theorem face_crop_inside_image
    (img : Image Pixels) (x y w h : Z) (scale : Q) :
  0 <= width img -> 0 <= height img -> 0 < w -> 0 < h -> (0 < scale)%Q ->
  match crop_size w h scale with
  | inl e =>
      e = Py.OverflowError /\
      crop_centered_square_from_bbox env img (x, y, w, h) scale = inl Py.OverflowError
  | inr cs =>
      exists left_ top_ right_ bottom_,
        crop_box (width img) (height img) (x, y, w, h) scale
        = Py.ok (left_, top_, right_, bottom_) /\
        crop_centered_square_from_bbox env img (x, y, w, h) scale
        = crop env img (left_, top_, right_, bottom_) /\
        (0 <= left_ <= right_ /\ right_ <= width img) /\
        (0 <= top_ <= bottom_ /\ bottom_ <= height img) /\
        right_ - left_ = Z.min cs (width img) /\
        bottom_ - top_ = Z.min cs (height img) /\
        (forall cropped,
           crop_centered_square_from_bbox env img (x, y, w, h) scale = inr cropped ->
           size cropped = (Z.min cs (width img), Z.min cs (height img)) /\
           width cropped <= width img /\ height cropped <= height img)
  end.
Proof.
  intros Hw0 Hh0 Hw Hh Hs.
  unfold crop_centered_square_from_bbox. rewrite crop_box_axes.
  destruct (crop_size w h scale) as [e | cs] eqn:Hsize; cbn [Py.bind].
  - apply crop_size_raises in Hsize. subst e. split; reflexivity.
  - pose proof (crop_size_nonneg w h scale cs Hw Hh Hs Hsize) as Hcs.
    pose proof (axis_inside (width img) x w cs Hw0 Hcs) as (Ix1 & Ix2).
    pose proof (axis_inside (height img) y h cs Hh0 Hcs) as (Iy1 & Iy2).
    pose proof (axis_extent (width img) x w cs Hw0 Hcs) as Ex.
    pose proof (axis_extent (height img) y h cs Hh0 Hcs) as Ey.
    do 4 eexists. split; [reflexivity |]. split; [reflexivity |].
    repeat match goal with |- _ /\ _ => split end; try lia.
    intros cropped Hc. apply ProcessPhotoFacts.crop_ok in Hc as (_ & Hsz & _).
    split; [rewrite Hsz, Ex, Ey; reflexivity |].
    injection Hsz as Hwd Hht. lia.
Qed.

(** X2.  When no face is found the crop is the centred square of side
    [min(width, height)]: it lies inside the image, touches two opposite
    edges of the shorter axis and leaves margins on the longer axis that
    differ by at most one pixel (the extra pixel on the right or bottom). *)
Theorem center_crop_when_no_face (img : Image Pixels) (face_scale : Q) (gray : Pixels) :
  cv2_gray env img = inr gray ->
  detect_face_bbox_cv2 env gray = None ->
  0 <= width img -> 0 <= height img ->
  exists left_ top_ side,
    auto_crop env img face_scale = crop env img (left_, top_, left_ + side, top_ + side) /\
    side = Z.min (width img) (height img) /\
    (0 <= left_ /\ left_ + side <= width img) /\
    (0 <= top_ /\ top_ + side <= height img) /\
    (left_ = 0 \/ top_ = 0) /\
    0 <= (width img - (left_ + side)) - left_ <= 1 /\
    0 <= (height img - (top_ + side)) - top_ <= 1 /\
    (forall cropped, auto_crop env img face_scale = inr cropped ->
                     size cropped = (side, side)).
Proof.
  intros Hgray Hnone Hw Hh.
  eexists _, _, _. split.
  { unfold auto_crop. rewrite Hgray. cbn [Py.bind]. rewrite Hnone. reflexivity. }
  split; [reflexivity |].
  repeat match goal with |- _ /\ _ => split end; try div_lia.
  intros cropped Hc. unfold auto_crop in Hc. rewrite Hgray in Hc. cbn [Py.bind] in Hc.
  rewrite Hnone in Hc. apply ProcessPhotoFacts.crop_ok in Hc as (_ & Hsize & _).
  rewrite Hsize. f_equal; lia.
Qed.

End Facts.

Lemma face_crop_inside_image_witness :
  exists left_ top_ right_ bottom_,
    crop_box 200 600 (50, 200, 100, 120) 2 = Py.ok (left_, top_, right_, bottom_) /\
    (0 <= left_ <= right_ /\ right_ <= 200) /\
    (0 <= top_ <= bottom_ /\ bottom_ <= 600) /\
    right_ - left_ = 200 /\ bottom_ - top_ = 240.
Proof.
  pose proof (face_crop_inside_image Nominal.env (Nominal.photo RGBA 200 600)
                50 200 100 120 2
                ltac:(cbn; lia) ltac:(cbn; lia) ltac:(lia) ltac:(lia) eq_refl) as H.
  change (crop_size 100 120 2) with (Py.ok 240) in H. cbv beta iota in H.
  destruct H as (l & t & r & b & Hbox & _ & Hx & Hy & Hw & Hh & _).
  exists l, t, r, b. split; [exact Hbox |].
  split; [exact Hx |]. split; [exact Hy |]. split; [exact Hw | exact Hh].
Defined.

Lemma center_crop_when_no_face_witness :
  auto_crop Nominal.env (Nominal.photo RGBA 801 600) 2
  = crop Nominal.env (Nominal.photo RGBA 801 600) (100, 0, 700, 600).
Proof.
  destruct (center_crop_when_no_face Nominal.env (Nominal.photo RGBA 801 600) 2 tt
              eq_refl eq_refl ltac:(cbn; lia) ltac:(cbn; lia))
    as (l & t & side & Heq & Hside & (Hl1 & Hl2) & (Ht1 & Ht2) & _ & Hc & _).
  cbn in Hside, Hl1, Hl2, Ht1, Ht2, Hc. rewrite Heq.
  assert (l = 100) as -> by lia. assert (t = 0) as -> by lia. subst side. reflexivity.
Defined.

End CropMore.

(** ** Detection, matting, enhancement and validation *)

Module PipelineMore.
Import CropGeometry Pil ProcessPhoto PyFacts ProcessPhotoFacts.

(** The fold of [largest_face] keeps the first face of maximal area. *)
Lemma largest_face_split (rest pre mid : list BBox) (best : BBox) :
  Forall (fun g => area g < area best) pre ->
  Forall (fun g => area g <= area best) mid ->
  exists pre' post',
    pre ++ best :: mid ++ rest = pre' ++ largest_face best rest :: post' /\
    Forall (fun g => area g < area (largest_face best rest)) pre' /\
    Forall (fun g => area g <= area (largest_face best rest)) post'.
Proof.
  revert pre mid best. induction rest as [| f rest IH]; intros pre mid best Hpre Hmid.
  - exists pre, mid. rewrite app_nil_r. auto.
  - change (largest_face best (f :: rest))
      with (largest_face (if area best <? area f then f else best) rest).
    destruct (area best <? area f) eqn:Hlt.
    + apply Z.ltb_lt in Hlt.
      destruct (IH (pre ++ best :: mid) [] f) as (pre' & post' & Heq & H1 & H2).
      * apply Forall_app; split; [| constructor; [lia |]].
        -- eapply Forall_impl; [exact Hpre |]. cbn. intros; lia.
        -- eapply Forall_impl; [exact Hmid |]. cbn. intros; lia.
      * constructor.
      * exists pre', post'. split; [| split; assumption].
        rewrite <- Heq. rewrite <- !app_assoc. reflexivity.
    + apply Z.ltb_ge in Hlt.
      destruct (IH pre (mid ++ [f]) best) as (pre' & post' & Heq & H1 & H2).
      * assumption.
      * apply Forall_app; split; [assumption | constructor; [lia | constructor]].
      * exists pre', post'. split; [| split; assumption].
        rewrite <- Heq. rewrite <- !app_assoc. reflexivity.
Qed.

(** Within the 32-bit range the key is the area. *)
Lemma area_in_range (g : BBox) : - 2 ^ 31 <= pixel_area g < 2 ^ 31 -> area g = pixel_area g.
Proof.
  destruct g as [[[x y] w] h]. unfold area, pixel_area, Py.int32_mul.
  intros H. rewrite Z.mod_small by lia. lia.
Qed.

(** Beyond it the key wraps: a 50000 x 50000 face has the key -1794967296
    and loses against a 100 x 100 face. *)
Example largest_face_wraps :
  area (0, 0, 50000, 50000) = -1794967296 /\
  largest_face (0, 0, 50000, 50000) [(10, 10, 100, 100)] = (10, 10, 100, 100).
Proof. split; reflexivity. Qed.

Section Facts.
Context {Pixels : Type} (env : Env Pixels).

(** X3.  [detect_face_bbox_cv2] returns [None] exactly when the detector
    raises or finds nothing; otherwise it returns one of the detected
    faces, the first whose sort key is maximal.  The key is the 32-bit
    product of width and height: when no product leaves the 32-bit range
    (as for faces within an image of up to 46340 x 46340 pixels) the face
    returned is the first of the largest area. *)
Theorem detect_face_returns_first_largest (gray : Pixels) :
  match detect_face_bbox_cv2 env gray with
  | None =>
      cv2_detect_multi_scale env gray = inr [] \/
      exists e, cv2_detect_multi_scale env gray = inl e
  | Some face =>
      exists before after,
        cv2_detect_multi_scale env gray = inr (before ++ face :: after) /\
        Forall (fun g => area g < area face) before /\
        Forall (fun g => area g <= area face) after /\
        (Forall (fun g => - 2 ^ 31 <= pixel_area g < 2 ^ 31) (before ++ face :: after) ->
         Forall (fun g => pixel_area g < pixel_area face) before /\
         Forall (fun g => pixel_area g <= pixel_area face) after)
  end.
Proof.
  unfold detect_face_bbox_cv2.
  destruct (cv2_detect_multi_scale env gray) as [e | [| f rest]]; [eauto | auto |].
  destruct (largest_face_split rest [] [] f) as (pre & post & Heq & H1 & H2);
    [constructor | constructor |].
  exists pre, post. cbn in Heq. rewrite Heq.
  split; [reflexivity |]. split; [exact H1 |]. split; [exact H2 |].
  intros Hrange. apply Forall_app in Hrange as [Hpre Hrest].
  apply Forall_cons in Hrest as [Hface Hpost].
  rewrite <- (area_in_range _ Hface).
  split.
  - apply Forall_forall. intros g Hg.
    rewrite <- (area_in_range g (proj1 (Forall_forall _ _) Hpre g Hg)).
    exact (proj1 (Forall_forall _ _) H1 g Hg).
  - apply Forall_forall. intros g Hg.
    rewrite <- (area_in_range g (proj1 (Forall_forall _ _) Hpost g Hg)).
    exact (proj1 (Forall_forall _ _) H2 g Hg).
Qed.

(** X4.  Background removal cannot lose the image: if the input converts
    to RGBA the function returns an RGBA image, and when rembg is not
    installed or raises, that image is the converted input itself (nothing
    is removed). *)
Theorem remove_background_keeps_image (img rgba : Image Pixels) :
  convert env img RGBA = inr rgba ->
  exists out,
    remove_background_rembg env img = inr out /\
    mode out = RGBA /\
    ((REMBG_AVAILABLE env = false \/ exists e, rembg_remove env img = inl e) ->
     out = rgba).
Proof.
  intros Hconv. unfold remove_background_rembg, Py.try_except.
  destruct (REMBG_AVAILABLE env) eqn:Hav; cbn [negb].
  - destruct (rembg_remove env img) as [e | matte] eqn:Hrem; cbn [Py.bind].
    + exists rgba. rewrite Hconv. split; [reflexivity |].
      split; [apply (convert_ok env _ _ _ Hconv) | reflexivity].
    + destruct (convert env matte RGBA) as [e | out] eqn:Hout.
      * exists rgba. rewrite Hconv. split; [reflexivity |].
        split; [apply (convert_ok env _ _ _ Hconv) |]. reflexivity.
      * exists out. split; [reflexivity |].
        split; [apply (convert_ok env _ _ _ Hout) |].
        intros [Hf | [e He]]; [discriminate Hf | discriminate He].
  - exists rgba. split; [exact Hconv |].
    split; [apply (convert_ok env _ _ _ Hconv) | reflexivity].
Qed.

(** X5.  [enhance_image_quality] never raises and never changes mode or
    size.  If the brightness step raises, the input is returned untouched
    and contrast is not attempted; if only the contrast step raises, the
    brightened image is returned. *)
Theorem enhance_image_quality_on_failure (img : Image Pixels) (brightness contrast : Q) :
  mode (enhance_image_quality env img brightness contrast) = mode img /\
  size (enhance_image_quality env img brightness contrast) = size img /\
  (forall e, ~ (brightness == 1)%Q ->
     enhance_brightness env img brightness = inl e ->
     enhance_image_quality env img brightness contrast = img) /\
  (forall e brightened, ~ (brightness == 1)%Q -> ~ (contrast == 1)%Q ->
     enhance_brightness env img brightness = inr brightened ->
     enhance_contrast env brightened contrast = inl e ->
     enhance_image_quality env img brightness contrast = brightened).
Proof.
  split; [apply enhance_image_quality_mode |].
  split; [apply enhance_image_quality_mode |].
  assert (Hne : forall q, ~ (q == 1)%Q -> negb (Qeq_bool q 1) = true).
  { intros q Hq. destruct (Qeq_bool q 1) eqn:H; [| reflexivity].
    apply Qeq_bool_iff in H. contradiction. }
  split.
  - intros e Hb Hfail. unfold enhance_image_quality.
    rewrite (Hne _ Hb), Hfail. reflexivity.
  - intros e brightened Hb Hc Hok Hfail. unfold enhance_image_quality.
    rewrite (Hne _ Hb), Hok, (Hne _ Hc), Hfail. reflexivity.
Qed.

End Facts.

Lemma remove_background_keeps_image_witness :
  remove_background_rembg (Nominal.faulty true true) (Nominal.photo RGB 300 300)
  = inr (Nominal.photo RGBA 300 300).
Proof.
  destruct (remove_background_keeps_image (Nominal.faulty true true)
              (Nominal.photo RGB 300 300) (Nominal.photo RGBA 300 300) eq_refl)
    as (out & Hout & _ & Hsame).
  rewrite Hout, Hsame; [reflexivity |].
  right. exists (Py.LibraryError 3). reflexivity.
Defined.

Section Validate.
Import Validation.
Context {Pixels : Type}.
Variable np_std : Image Pixels -> Py.result Q.
Variable str_of_exn : Py.exn -> string.

(** X6.  [validate_image] accepts an image exactly when both dimensions
    are within 200..4000 and the pixel standard deviation can be computed
    and is at least 10; it then returns the empty message.  A side below
    200 is reported as too small even if the other side exceeds 4000, and
    a failing computation is reported, not raised. *)
Theorem validate_image_accepts_iff (img : Image Pixels) :
  (fst (validate_image np_std str_of_exn img) = true <->
   (200 <= width img <= 4000 /\ 200 <= height img <= 4000 /\
    exists sd, np_std img = inr sd /\ (10 <= sd)%Q)) /\
  (fst (validate_image np_std str_of_exn img) = true ->
   snd (validate_image np_std str_of_exn img) = ""%string) /\
  (width img < 200 \/ height img < 200 ->
   validate_image np_std str_of_exn img
   = (false, "Image too small. Minimum 200x200 pixels required."%string)).
Proof.
  unfold validate_image.
  destruct (width img <? 200) eqn:Hw1; [| destruct (height img <? 200) eqn:Hh1];
    cbn [orb fst snd].
  1-2: split; [split; [discriminate | intros (? & ? & _); lia] |
               split; [discriminate | reflexivity]].
  destruct (4000 <? width img) eqn:Hw2; [| destruct (4000 <? height img) eqn:Hh2];
    cbn [orb fst snd].
  1-2: split; [split; [discriminate | intros (? & ? & _); lia] |
               split; [discriminate | intros; lia]].
  destruct (np_std img) as [e | sd] eqn:Hsd; cbn [Py.bind fst snd].
  - split; [split; [discriminate | intros (_ & _ & sd & H & _); discriminate H] |
            split; [discriminate | intros; lia]].
  - destruct (Qle_bool 10 sd) eqn:Hle; cbn [negb fst snd].
    + split; [split; [intros _ | reflexivity] | split; [reflexivity | intros; lia]].
      repeat split; try lia. exists sd. split; [reflexivity |].
      apply Qle_bool_iff, Hle.
    + split; [split; [discriminate |] | split; [discriminate | intros; lia]].
      intros (_ & _ & sd' & [= <-] & Hge). apply Qle_bool_iff in Hge. congruence.
Qed.

End Validate.
End PipelineMore.

(** ** Colour tokens *)

Module ColorMore.
Import PyStr PyVal Color ColorFacts Hex.
Local Open Scope string_scope.

(** X7.  For a string, whatever it contains, [_parse_color] returns a
    colour and never raises, and that colour is opaque (alpha 255). *)
Theorem parse_color_string_opaque (s : string) :
  exists r g b, _parse_color (VStr s) = Py.ok (r, g, b, 255).
Proof.
  cbn. unfold resolve_token.
  destruct (named_colors !! _) as [[[r g] b] |]; [eauto |].
  destruct (_ && _); [| unfold white; eauto].
  destruct (parse_hex _) as [e | c] eqn:H.
  - apply parse_hex_raises in H. subst e. unfold white. eauto.
  - unfold parse_hex, Py.bind in H.
    repeat match type of H with
           | match ?x with _ => _ end = _ => destruct x; [discriminate H |]
           end.
    injection H as <-. eauto.
Qed.

(** Every pair of hexadecimal digits, checked one by one: after
    lower-casing, [int(pair, 16)] is [16 * high + low], within a byte. *)
Lemma hex_pair_checked :
  forallb (fun a => forallb (fun b =>
    match hex_digit a, hex_digit b with
    | Some va, Some vb =>
        match int_of_str 16 (String (lower_char a) (String (lower_char b) "")) with
        | inr v => ((v =? 16 * va + vb) && (0 <=? v) && (v <=? 255))%Z
        | inl _ => false
        end
    | _, _ => true
    end) all_ascii) all_ascii = true.
Proof. vm_compute. reflexivity. Qed.

Lemma hex_pair (a b : ascii) (va vb : Z) :
  hex_digit a = Some va -> hex_digit b = Some vb ->
  int_of_str 16 (String (lower_char a) (String (lower_char b) "")) = Py.ok (16 * va + vb)%Z
  /\ (0 <= 16 * va + vb <= 255)%Z.
Proof.
  intros Ha Hb. pose proof hex_pair_checked as H.
  rewrite forallb_forall in H. specialize (H a (in_all_ascii a)).
  rewrite forallb_forall in H. specialize (H b (in_all_ascii b)).
  rewrite Ha, Hb in H.
  destruct (int_of_str 16 _) as [e | v]; [discriminate H |].
  apply andb_prop in H as [H H3]. apply andb_prop in H as [H1 H2].
  apply Z.eqb_eq in H1. apply Z.leb_le in H2, H3. subst v. split; [reflexivity | lia].
Qed.

Lemma hex_digit_not_space (c : ascii) (v : Z) :
  hex_digit c = Some v -> isspace c = false /\ isspace (lower_char c) = false.
Proof.
  destruct c as [[] [] [] [] [] [] [] []]; vm_compute; intros H;
    first [discriminate H | split; reflexivity].
Qed.

(** No palette name starts with [#]. *)
Lemma named_colors_hash (rest : string) : named_colors !! String "#" rest = None.
Proof.
  unfold named_colors. apply not_elem_of_list_to_map.
  cbn. rewrite !elem_of_cons, elem_of_nil.
  intros H. repeat destruct H as [H | H]; try discriminate H; exact H.
Qed.

(** X8.  A well-formed [#RRGGBB] token, digits in either case, resolves to
    the three bytes it spells, [16 * high + low] per channel, each within
    0..255, with alpha 255. *)
Theorem parse_color_hex_channels (c1 c2 c3 c4 c5 c6 : ascii) (v1 v2 v3 v4 v5 v6 : Z) :
  hex_digit c1 = Some v1 -> hex_digit c2 = Some v2 -> hex_digit c3 = Some v3 ->
  hex_digit c4 = Some v4 -> hex_digit c5 = Some v5 -> hex_digit c6 = Some v6 ->
  _parse_color
    (VStr (String "#" (String c1 (String c2 (String c3 (String c4
             (String c5 (String c6 ""))))))))
  = Py.ok (16 * v1 + v2, 16 * v3 + v4, 16 * v5 + v6, 255)%Z /\
  valid_rgba (16 * v1 + v2, 16 * v3 + v4, 16 * v5 + v6, 255)%Z = true.
Proof.
  intros H1 H2 H3 H4 H5 H6.
  destruct (hex_pair c1 c2 v1 v2 H1 H2) as [P12 R12].
  destruct (hex_pair c3 c4 v3 v4 H3 H4) as [P34 R34].
  destruct (hex_pair c5 c6 v5 v6 H5 H6) as [P56 R56].
  destruct (hex_digit_not_space c6 v6 H6) as [S6 _].
  split.
  - cbn [_parse_color sequence_items]. unfold strip.
    cbn [lstrip]. change (isspace "#") with false. cbn iota.
    cbn [rstrip]. rewrite S6. cbn iota.
    cbn [lower]. change (lower_char "#") with "#"%char.
    unfold resolve_token. rewrite named_colors_hash.
    cbn [startswith String.prefix String.length Nat.eqb andb].
    unfold parse_hex, slice. cbn [String.substring Nat.sub].
    rewrite P12. cbn [Py.bind Py.ok]. rewrite P34. cbn [Py.bind Py.ok]. rewrite P56.
    reflexivity.
  - unfold valid_rgba, channel_ok.
    repeat (apply andb_true_intro; split); apply Z.leb_le; lia.
Qed.
Lemma parse_color_hex_channels_witness :
  _parse_color (VStr "#fF5733") = Py.ok (255, 87, 51, 255)%Z /\
  valid_rgba (255, 87, 51, 255)%Z = true.
Proof.
  exact (parse_color_hex_channels "f" "F" "5" "7" "3" "3" 15 15 5 7 3 3
           eq_refl eq_refl eq_refl eq_refl eq_refl eq_refl).
Defined.

End ColorMore.

(** ** The layout planner *)

Module LayoutMore.
Import Pil A4 Grid PyFacts.

Lemma grid_layout_inv (cw ch p m s cols rows xo yo : Z) :
  calculate_grid_layout (cw, ch) p m s = Py.ok (cols, rows, xo, yo) ->
  p + s <> 0 /\
  cols = Z.max 1 ((cw - 2 * m + s) / (p + s)) /\
  rows = Z.max 1 ((ch - 2 * m + s) / (p + s)) /\
  xo = (cw - (cols * p + (cols - 1) * s)) / 2 /\
  yo = (ch - (rows * p + (rows - 1) * s)) / 2.
Proof.
  unfold calculate_grid_layout, Py.floordiv.
  destruct (p + s =? 0) eqn:Hz; [discriminate |]. cbn [Py.bind Py.ok].
  intros [= <- <- <- <-]. repeat split; try reflexivity. lia.
Qed.

(** The count on one axis, when one cell fits between the margins. *)
Lemma count_fits (c p m s : Z) :
  0 < p -> 0 <= s -> p + 2 * m <= c ->
  let n := Z.max 1 ((c - 2 * m + s) / (p + s)) in
  1 <= n /\ n * p + (n - 1) * s <= c - 2 * m /\ c - 2 * m < (n + 1) * p + n * s.
Proof.
  intros Hp Hs Hfit n.
  assert (Hq : 1 <= (c - 2 * m + s) / (p + s)).
  { apply Z.div_le_lower_bound; lia. }
  assert (Hn : n = (c - 2 * m + s) / (p + s)) by (unfold n; lia).
  pose proof (Z.mul_div_le (c - 2 * m + s) (p + s) ltac:(lia)) as Hlo.
  pose proof (Z.mul_succ_div_gt (c - 2 * m + s) (p + s) ltac:(lia)) as Hhi.
  rewrite <- Hn in Hlo, Hhi. nia.
Qed.

(** X9.  Whenever the planner returns, the grid is centred on the canvas
    to the pixel: on each axis the space after the grid equals the offset
    before it, or exceeds it by one. *)
Theorem grid_layout_centered (cw ch p m s cols rows xo yo : Z) :
  calculate_grid_layout (cw, ch) p m s = Py.ok (cols, rows, xo, yo) ->
  let grid_width := cols * p + (cols - 1) * s in
  let grid_height := rows * p + (rows - 1) * s in
  0 <= (cw - (xo + grid_width)) - xo <= 1 /\
  0 <= (ch - (yo + grid_height)) - yo <= 1.
Proof.
  intros H. apply grid_layout_inv in H as (_ & _ & _ & -> & ->).
  cbv zeta. split; Z.div_mod_to_equations; lia.
Qed.

(** X10.  With a positive cell size and a non-negative spacing, on each
    axis where one cell fits between the margins the whole grid does: the
    offset is at least the margin, the grid ends at least the margin before
    the far edge, and one more column (row) would not fit between the
    margins. *)
Theorem grid_layout_respects_margins (cw ch p m s cols rows xo yo : Z) :
  0 < p -> 0 <= s ->
  calculate_grid_layout (cw, ch) p m s = Py.ok (cols, rows, xo, yo) ->
  (p + 2 * m <= cw ->
   m <= xo /\ xo + (cols * p + (cols - 1) * s) <= cw - m /\
   cw - 2 * m < (cols + 1) * p + cols * s) /\
  (p + 2 * m <= ch ->
   m <= yo /\ yo + (rows * p + (rows - 1) * s) <= ch - m /\
   ch - 2 * m < (rows + 1) * p + rows * s).
Proof.
  intros Hp Hs H. apply grid_layout_inv in H as (_ & -> & -> & -> & ->).
  split; intros Hfit.
  - destruct (count_fits cw p m s Hp Hs Hfit) as (H1 & H2 & H3).
    set (n := Z.max 1 _) in *. clearbody n.
    set (g := n * p + (n - 1) * s) in *. clearbody g.
    repeat split; try assumption; Z.div_mod_to_equations; lia.
  - destruct (count_fits ch p m s Hp Hs Hfit) as (H1 & H2 & H3).
    set (n := Z.max 1 _) in *. clearbody n.
    set (g := n * p + (n - 1) * s) in *. clearbody g.
    repeat split; try assumption; Z.div_mod_to_equations; lia.
Qed.
Lemma grid_layout_centered_witness :
  0 <= (2480 - (310 + (3 * 600 + (3 - 1) * 30))) - 310 <= 1 /\
  0 <= (3508 - (194 + (5 * 600 + (5 - 1) * 30))) - 194 <= 1.
Proof.
  exact (grid_layout_centered 2480 3508 600 60 30 3 5 310 194 eq_refl).
Defined.

Lemma grid_layout_respects_margins_witness :
  (600 + 2 * 60 <= 2480 ->
   60 <= 310 /\ 310 + (3 * 600 + (3 - 1) * 30) <= 2480 - 60 /\
   2480 - 2 * 60 < (3 + 1) * 600 + 3 * 30) /\
  (600 + 2 * 60 <= 3508 ->
   60 <= 194 /\ 194 + (5 * 600 + (5 - 1) * 30) <= 3508 - 60 /\
   3508 - 2 * 60 < (5 + 1) * 600 + 5 * 30).
Proof.
  exact (grid_layout_respects_margins 2480 3508 600 60 30 3 5 310 194
           ltac:(lia) ltac:(lia) eq_refl).
Defined.

End LayoutMore.

(** ** Placing one photo many times *)

Module SheetMore.
Import Pil A4 Grid PyFacts LayoutMore.

Lemma cells_cons (xo yo sp row : Z) (cols rows : list Z) :
  cells xo yo sp cols (row :: rows) =
  map (fun col => (xo + col * (PASSPORT_SIZE_PX + sp), yo + row * (PASSPORT_SIZE_PX + sp))) cols
  ++ cells xo yo sp cols rows.
Proof.
  unfold cells. cbn [list_prod]. rewrite map_app, map_map. reflexivity.
Qed.

Lemma length_cells (xo yo sp : Z) (cols rows : list Z) :
  length (cells xo yo sp cols rows) = (length rows * length cols)%nat.
Proof. unfold cells. rewrite length_map. apply length_prod. Qed.

Lemma elem_of_cells (xo yo sp : Z) (cols rows : list Z) (p : Z * Z) :
  In p (cells xo yo sp cols rows) ->
  exists row col, In row rows /\ In col cols /\
    p = (xo + col * (PASSPORT_SIZE_PX + sp), yo + row * (PASSPORT_SIZE_PX + sp)).
Proof.
  unfold cells. rewrite in_map_iff. intros ([row col] & <- & Hin).
  apply in_prod_iff in Hin as [Hr Hc]. eauto.
Qed.

(** One axis of the layout, when the canvas holds a cell: the grid starts
    at a non-negative offset and every cell ends inside the canvas. *)
Lemma axis_inside_canvas (c p m s : Z) :
  0 < p <= c -> 0 <= m -> 0 <= s ->
  let n := Z.max 1 ((c - 2 * m + s) / (p + s)) in
  let offset := (c - (n * p + (n - 1) * s)) / 2 in
  0 <= offset /\ forall i, 0 <= i < n -> offset + i * (p + s) + p <= c.
Proof.
  intros Hp Hm Hs n offset.
  assert (Hg : 1 <= n /\ n * p + (n - 1) * s <= c).
  { destruct (Z_le_gt_dec (p + 2 * m) c) as [Hfit | Hno].
    - destruct (count_fits c p m s) as (H1 & H2 & _); lia.
    - assert ((c - 2 * m + s) / (p + s) <= 0)
        by (apply Z.lt_succ_r, Z.div_lt_upper_bound; lia).
      assert (n = 1) by (unfold n; lia). subst n. lia. }
  destruct Hg as [Hn Hg]. clearbody n.
  assert (Ho : 0 <= offset /\ offset + (n * p + (n - 1) * s) <= c).
  { unfold offset. set (g := n * p + (n - 1) * s) in *. clearbody g.
    split; Z.div_mod_to_equations; lia. }
  destruct Ho as [Ho1 Ho2]. clearbody offset. split; [exact Ho1 |].
  intros i Hi. nia.
Qed.

(** On the A4 canvas with 600-pixel cells the planner returns whenever the
    spacing is not negative. *)
Lemma grid_layout_counts_and_offsets_exists (margin spacing : Z) :
  0 <= spacing ->
  exists cols rows xo yo,
    calculate_grid_layout A4_SIZE_PX PASSPORT_SIZE_PX margin spacing
    = Py.ok (cols, rows, xo, yo) /\ 1 <= cols /\ 1 <= rows.
Proof.
  intros Hs. unfold calculate_grid_layout, A4_SIZE_PX, Py.floordiv.
  destruct (PASSPORT_SIZE_PX + spacing =? 0) eqn:Hz;
    [unfold PASSPORT_SIZE_PX in Hz; lia |].
  cbn [Py.bind Py.ok]. do 4 eexists. split; [reflexivity | lia].
Qed.

Lemma NoDup_list_prod {A B} (l : list A) (k : list B) :
  NoDup l -> NoDup k -> NoDup (list_prod l k).
Proof.
  intros Hl Hk. induction Hl as [| a l Ha Hl IH]; [constructor |].
  cbn [list_prod]. apply NoDup_app. split; [| split; [| exact IH]].
  - change (map (fun y => (a, y)) k) with ((fun y => (a, y)) <$> k).
    apply NoDup_fmap_2; [| exact Hk]. intros x y [= ->]. reflexivity.
  - intros [a' b] H1 H2.
    apply list_elem_of_In, in_map_iff in H1 as (y & [= <- <-] & _).
    apply list_elem_of_In, in_prod_iff in H2 as [H2 _].
    apply Ha, list_elem_of_In, H2.
Qed.

(** Distinct cells of the grid do not overlap when the spacing is not
    negative. *)
Lemma cells_disjoint (xo yo sp : Z) (cols rows : list Z) (i j : nat) (p q : Z * Z) :
  0 <= sp -> NoDup cols -> NoDup rows -> i <> j ->
  cells xo yo sp cols rows !! i = Some p ->
  cells xo yo sp cols rows !! j = Some q ->
  disjoint p q.
Proof.
  intros Hs Hc Hr Hij Hp Hq. unfold cells in Hp, Hq.
  change (map ?g ?l) with (g <$> l) in Hp, Hq.
  rewrite list_lookup_fmap in Hp, Hq.
  destruct (list_prod rows cols !! i) as [[r c] |] eqn:Hi; [| discriminate Hp].
  destruct (list_prod rows cols !! j) as [[r' c'] |] eqn:Hj; [| discriminate Hq].
  injection Hp as <-. injection Hq as <-.
  assert (Hne : (r, c) <> (r', c')).
  { intros Heq. rewrite <- Heq in Hj.
    apply Hij.
    exact (NoDup_lookup _ i j (r, c) (NoDup_list_prod rows cols Hr Hc) Hi Hj). }
  unfold disjoint, PASSPORT_SIZE_PX. cbn [fst snd].
  destruct (Z.eq_dec c c') as [-> | Hcc].
  - right. assert (r <> r') by congruence. nia.
  - left. nia.
Qed.

Section Facts.
Context {Pixels : Type} (env : Env Pixels).

Lemma with_pasted_nil (sheet : Sheet Pixels) : with_pasted sheet [] = sheet.
Proof. unfold with_pasted. rewrite app_nil_r. destruct sheet; reflexivity. Qed.

Lemma with_pasted_app (sheet : Sheet Pixels) (l1 l2 : list (Image Pixels * (Z * Z))) :
  with_pasted (with_pasted sheet l1) l2 = with_pasted sheet (l1 ++ l2).
Proof. unfold with_pasted. cbn. rewrite app_assoc. reflexivity. Qed.

Lemma place_row_exact (photo : Image Pixels) (copies xo yo sp row : Z) (cols : list Z)
    (sheet : Sheet Pixels) (n : Z) :
  (forall col, In col cols ->
     fits (xo + col * (PASSPORT_SIZE_PX + sp)) (yo + row * (PASSPORT_SIZE_PX + sp)) = true) ->
  let k := Nat.min (length cols) (Z.to_nat (copies - n)) in
  place_row photo copies xo yo sp row cols (sheet, n) =
  (with_pasted sheet
     (map (fun at_ => (photo, at_))
        (take k (map (fun col => (xo + col * (PASSPORT_SIZE_PX + sp),
                                  yo + row * (PASSPORT_SIZE_PX + sp))) cols))),
   n + Z.of_nat k).
Proof.
  revert sheet n. induction cols as [| col cols IH]; intros sheet n Hfit k.
  - cbn. rewrite with_pasted_nil. f_equal. lia.
  - cbn [place_row]. destruct (copies <=? n) eqn:Hc.
    + apply Z.leb_le in Hc. assert (k = 0%nat) as -> by (unfold k; lia).
      cbn. rewrite with_pasted_nil. f_equal. lia.
    + apply Z.leb_gt in Hc. rewrite (Hfit col) by (left; reflexivity).
      rewrite IH by (intros; apply Hfit; right; assumption).
      assert (Hk : k = S (Nat.min (length cols) (Z.to_nat (copies - (n + 1)))))
        by (unfold k; cbn [length]; lia).
      rewrite Hk. cbn [map take]. f_equal; [| lia].
      change (paste sheet photo ?p) with (with_pasted sheet [(photo, p)]).
      rewrite with_pasted_app. reflexivity.
Qed.

Lemma place_rows_exact (photo : Image Pixels) (copies xo yo sp : Z) (cols rows : list Z)
    (sheet : Sheet Pixels) (n : Z) :
  (forall row col, In row rows -> In col cols ->
     fits (xo + col * (PASSPORT_SIZE_PX + sp)) (yo + row * (PASSPORT_SIZE_PX + sp)) = true) ->
  place_rows photo copies xo yo sp cols rows (sheet, n) =
  (with_pasted sheet
     (map (fun at_ => (photo, at_))
        (take (Nat.min (length rows * length cols) (Z.to_nat (copies - n)))
              (cells xo yo sp cols rows))),
   n + Z.of_nat (Nat.min (length rows * length cols) (Z.to_nat (copies - n)))).
Proof.
  revert sheet n. induction rows as [| row rows IH]; intros sheet n Hfit.
  - cbn. rewrite with_pasted_nil. f_equal. lia.
  - cbn [place_rows]. rewrite place_row_exact by (intros; apply Hfit; [left |]; auto).
    cbn [snd]. rewrite cells_cons.
    change (length (row :: rows) * length cols)%nat
      with (length cols + length rows * length cols)%nat.
    set (rowcells := map _ cols).
    assert (Hlen : length rowcells = length cols) by (unfold rowcells; apply length_map).
    set (t := (length rows * length cols)%nat) in *.
    set (c := length cols) in *.
    destruct (copies <=? n + Z.of_nat (Nat.min c (Z.to_nat (copies - n)))) eqn:Hc.
    + apply Z.leb_le in Hc.
      assert (Hk : Nat.min (c + t) (Z.to_nat (copies - n))
                   = Nat.min c (Z.to_nat (copies - n))) by (clear - Hc; lia).
      rewrite Hk. rewrite take_app_le by (clear - Hlen; lia). reflexivity.
    + apply Z.leb_gt in Hc.
      assert (Hk1 : Nat.min c (Z.to_nat (copies - n)) = c) by (clear - Hc; lia).
      rewrite Hk1.
      rewrite IH by (intros; apply Hfit; [right |]; auto). fold t.
      rewrite with_pasted_app, <- map_app.
      rewrite (take_app_ge rowcells) by (clear - Hc Hk1 Hlen; lia).
      rewrite Hlen, firstn_all2 by (clear - Hlen; lia).
      assert (Hk : (Nat.min (c + t) (Z.to_nat (copies - n)) - c)%nat
                   = Nat.min t (Z.to_nat (copies - (n + Z.of_nat c))))
        by (clear - Hc Hk1; lia).
      rewrite Hk. f_equal. clear - Hc Hk1. lia.
Qed.

(** With non-negative margin and spacing every cell of the A4 grid lies
    inside the canvas. *)
Lemma a4_cell_inside (margin spacing cols rows xo yo row col : Z) :
  0 <= margin -> 0 <= spacing ->
  calculate_grid_layout A4_SIZE_PX PASSPORT_SIZE_PX margin spacing
  = Py.ok (cols, rows, xo, yo) ->
  In row (range 0 rows) -> In col (range 0 cols) ->
  inside_canvas (xo + col * (PASSPORT_SIZE_PX + spacing),
                 yo + row * (PASSPORT_SIZE_PX + spacing)).
Proof.
  intros Hm Hs Hl Hrow Hcol.
  apply list_elem_of_In, elem_of_seqZ in Hrow, Hcol.
  unfold inside_canvas, A4_SIZE_PX, A4_WIDTH_PX, A4_HEIGHT_PX, PASSPORT_SIZE_PX in *.
  cbn [fst snd].
  destruct (axis_inside_canvas 2480 600 margin spacing) as [Hx0 Hx]; try lia.
  destruct (axis_inside_canvas 3508 600 margin spacing) as [Hy0 Hy]; try lia.
  apply grid_layout_inv in Hl as (_ & -> & -> & -> & ->).
  specialize (Hx col ltac:(lia)). specialize (Hy row ltac:(lia)).
  assert (0 <= col * (600 + spacing)) by nia.
  assert (0 <= row * (600 + spacing)) by nia.
  lia.
Qed.

Lemma inside_canvas_fits (p : Z * Z) : inside_canvas p -> fits (fst p) (snd p) = true.
Proof.
  intros (_ & Hx & _ & Hy). unfold fits. apply andb_true_intro.
  split; apply Z.leb_le; assumption.
Qed.

(** The drawing of [make_a4_sheet] when every cell fits: the first
    [copies] cells, row by row. *)
Lemma draw_sheet_exact (img photo : Image Pixels) (copies margin spacing : Z)
    (add_cut_lines : bool) (cols rows xo yo : Z) :
  0 <= margin -> 0 <= spacing ->
  ensure_passport_size env img = inr photo ->
  calculate_grid_layout A4_SIZE_PX PASSPORT_SIZE_PX margin spacing
  = Py.ok (cols, rows, xo, yo) ->
  exists sheet,
    draw_sheet env img copies margin spacing add_cut_lines = inr sheet /\
    sheet_size sheet = A4_SIZE_PX /\
    pasted sheet =
      map (fun at_ => (photo, at_))
          (take (Z.to_nat copies) (cells xo yo spacing (range 0 cols) (range 0 rows))) /\
    Z.of_nat (length (cells xo yo spacing (range 0 cols) (range 0 rows))) = cols * rows.
Proof.
  intros Hm Hs Hphoto Hl.
  assert (Hfit : forall row col, In row (range 0 rows) -> In col (range 0 cols) ->
            fits (xo + col * (PASSPORT_SIZE_PX + spacing))
                 (yo + row * (PASSPORT_SIZE_PX + spacing)) = true).
  { intros row col Hrow Hcol. apply (inside_canvas_fits (_, _)).
    exact (a4_cell_inside margin spacing cols rows xo yo row col Hm Hs Hl Hrow Hcol). }
  pose proof (place_rows_exact photo copies xo yo spacing (range 0 cols) (range 0 rows)
                (mkSheet A4_SIZE_PX [] []) 0 Hfit) as Hloop.
  set (k := Nat.min _ _) in Hloop.
  set (all := cells xo yo spacing (range 0 cols) (range 0 rows)) in *.
  assert (Hlen : length all = (length (range 0 rows) * length (range 0 cols))%nat)
    by apply length_cells.
  assert (Hcount : Z.of_nat (length all) = cols * rows).
  { apply grid_layout_inv in Hl as (_ & Hc & Hr & _).
    rewrite Hlen. unfold range. rewrite !length_seqZ. nia. }
  assert (Htake : take k all = take (Z.to_nat copies) all).
  { unfold k. rewrite Z.sub_0_r, <- Hlen.
    destruct (Nat.le_ge_cases (length all) (Z.to_nat copies)) as [Hle | Hge].
    - rewrite Nat.min_l by exact Hle.
      rewrite (take_ge all (length all)) by lia.
      rewrite (take_ge all (Z.to_nat copies)) by exact Hle. reflexivity.
    - rewrite Nat.min_r by exact Hge. reflexivity. }
  eexists. split.
  { unfold draw_sheet. rewrite Hphoto. cbn [Py.bind]. rewrite Hl. cbn [Py.bind Py.ok].
    fold all. rewrite Hloop. reflexivity. }
  split; [destruct add_cut_lines; reflexivity |].
  split; [| exact Hcount].
  rewrite <- Htake. destruct add_cut_lines; reflexivity.
Qed.

Lemma ensure_passport_size_ok (img photo : Image Pixels) :
  ensure_passport_size env img = inr photo ->
  size photo = (PASSPORT_SIZE_PX, PASSPORT_SIZE_PX) /\ mode photo = mode img.
Proof.
  unfold ensure_passport_size. case_bool_decide as Hsz; cbn [negb].
  - intros [= <-]. auto.
  - intros H. apply ProcessPhotoFacts.resize_ok in H as [Hm Hs]. auto.
Qed.

Lemma place_row_ok (photo : Image Pixels) (copies xo yo sp row : Z) (cols : list Z)
    (st : Sheet Pixels * Z) :
  placed_ok photo copies st ->
  placed_ok photo copies (place_row photo copies xo yo sp row cols st).
Proof.
  revert st. induction cols as [| col cols IH]; intros [sheet n] Hst; [exact Hst |].
  cbn [place_row]. destruct (copies <=? n) eqn:Hc; [exact Hst |].
  apply Z.leb_gt in Hc. apply IH.
  destruct (fits _ _) eqn:Hf; [| exact Hst].
  destruct Hst as (Hall & Hn & Hle). cbn [fst snd] in *.
  unfold placed_ok, paste. cbn [fst snd pasted].
  split; [| split].
  - apply Forall_app. split; [exact Hall |]. constructor; [| constructor].
    cbn [fst snd]. auto.
  - rewrite length_app. cbn [length]. lia.
  - lia.
Qed.

Lemma place_rows_ok (photo : Image Pixels) (copies xo yo sp : Z) (cols rows : list Z)
    (st : Sheet Pixels * Z) :
  placed_ok photo copies st ->
  placed_ok photo copies (place_rows photo copies xo yo sp cols rows st).
Proof.
  revert st. induction rows as [| row rows IH]; intros st Hst; [exact Hst |].
  cbn [place_rows].
  pose proof (place_row_ok photo copies xo yo sp row cols st Hst) as Hrow.
  destruct (copies <=? _); [exact Hrow | apply IH, Hrow].
Qed.

(** X11.  Whatever the margin, the spacing and the number of copies, the
    sheet bitmap that [make_a4_sheet] draws (lines 84-118, before the
    conversion to PDF) holds at most [copies] photos (none for a negative
    count), every one the prepared 600 x 600 photo, and none of them
    reaches beyond the right or the bottom edge of the canvas. *)
Theorem sheet_bitmap_bounds (img : Image Pixels) (copies margin spacing : Z)
    (add_cut_lines : bool) (sheet : Sheet Pixels) :
  draw_sheet env img copies margin spacing add_cut_lines = inr sheet ->
  Z.of_nat (length (pasted sheet)) <= Z.max 0 copies /\
  Forall (fun placed =>
            ensure_passport_size env img = inr (fst placed) /\
            size (fst placed) = (600, 600) /\
            fst (snd placed) + 600 <= A4_WIDTH_PX /\
            snd (snd placed) + 600 <= A4_HEIGHT_PX)
         (pasted sheet).
Proof.
  intros H. unfold draw_sheet in H.
  apply bind_inr in H as (photo & Hphoto & H).
  apply bind_inr in H as ([[[cols rows] xo] yo] & _ & H).
  pose proof (place_rows_ok photo copies xo yo spacing (range 0 cols) (range 0 rows)
                (mkSheet A4_SIZE_PX [] [], 0)) as Hok.
  destruct (place_rows _ _ _ _ _ _ _ _) as [sh n].
  injection H as <-.
  destruct Hok as (Hall & Hn & Hle).
  { split; [constructor | split; [reflexivity | cbn; lia]]. }
  cbn [fst snd] in *.
  assert (Hp : pasted (if add_cut_lines
                       then add_cutting_guides sh cols rows xo yo spacing else sh)
               = pasted sh) by (destruct add_cut_lines; reflexivity).
  rewrite Hp. split; [lia |].
  eapply Forall_impl; [exact Hall |]. cbn beta.
  intros [ph [x y]] [-> Hf]. cbn [fst snd] in *.
  destruct (ensure_passport_size_ok _ _ Hphoto) as [Hs _].
  unfold fits, PASSPORT_SIZE_PX in *. apply andb_prop in Hf as [Hx Hy].
  apply Z.leb_le in Hx, Hy. auto.
Qed.

(** X12.  With non-negative margin and spacing and a prepared photo, the
    loops of [make_a4_sheet] fill the grid in row-major order and stop at
    [copies]: the sheet bitmap is drawn, its pastes are the first [copies]
    cells, so [min(copies, cols * rows)] photos are placed (none when
    [copies] is negative) and requests beyond the grid are silently cut. *)
Theorem sheet_bitmap_fills_grid (img photo : Image Pixels) (copies margin spacing : Z)
    (add_cut_lines : bool) :
  0 <= margin -> 0 <= spacing ->
  ensure_passport_size env img = inr photo ->
  exists cols rows x_offset y_offset sheet,
    calculate_grid_layout A4_SIZE_PX PASSPORT_SIZE_PX margin spacing
    = Py.ok (cols, rows, x_offset, y_offset) /\
    draw_sheet env img copies margin spacing add_cut_lines = inr sheet /\
    pasted sheet =
      map (fun at_ => (photo, at_))
          (take (Z.to_nat copies)
                (cells x_offset y_offset spacing (range 0 cols) (range 0 rows))) /\
    Z.of_nat (length (pasted sheet)) = Z.max 0 (Z.min copies (cols * rows)).
Proof.
  intros Hm Hs Hphoto.
  destruct (grid_layout_counts_and_offsets_exists margin spacing Hs)
    as (cols & rows & xo & yo & Hl & _ & _).
  destruct (draw_sheet_exact img photo copies margin spacing add_cut_lines
              cols rows xo yo Hm Hs Hphoto Hl) as (sheet & Hdraw & _ & Hpasted & Hcount).
  exists cols, rows, xo, yo, sheet. split; [exact Hl |]. split; [exact Hdraw |].
  split; [exact Hpasted |].
  rewrite Hpasted, length_map, length_take. lia.
Qed.

(** X13.  With non-negative margin and spacing, every photo on the sheet
    bitmap that [make_a4_sheet] draws lies wholly inside the A4 canvas, and
    no two photos overlap. *)
Theorem sheet_bitmap_photos_apart (img : Image Pixels) (copies margin spacing : Z)
    (add_cut_lines : bool) (sheet : Sheet Pixels) :
  0 <= margin -> 0 <= spacing ->
  draw_sheet env img copies margin spacing add_cut_lines = inr sheet ->
  Forall (fun placed => inside_canvas (snd placed)) (pasted sheet) /\
  (forall i j p q, i <> j ->
     pasted sheet !! i = Some p -> pasted sheet !! j = Some q ->
     disjoint (snd p) (snd q)).
Proof.
  intros Hm Hs Hdraw.
  assert (Hparts : exists photo cols rows xo yo,
            ensure_passport_size env img = inr photo /\
            calculate_grid_layout A4_SIZE_PX PASSPORT_SIZE_PX margin spacing
            = Py.ok (cols, rows, xo, yo)).
  { pose proof Hdraw as Hd. unfold draw_sheet in Hd.
    apply bind_inr in Hd as (photo & Hphoto & Hd).
    apply bind_inr in Hd as ([[[cols rows] xo] yo] & Hl & _).
    exists photo, cols, rows, xo, yo. split; [exact Hphoto | exact Hl]. }
  destruct Hparts as (photo & cols & rows & xo & yo & Hphoto & Hl).
  destruct (draw_sheet_exact img photo copies margin spacing add_cut_lines
              cols rows xo yo Hm Hs Hphoto Hl) as (sheet' & Hdraw' & _ & Hpasted & _).
  rewrite Hdraw in Hdraw'. injection Hdraw' as <-.
  set (all := cells xo yo spacing (range 0 cols) (range 0 rows)) in *.
  assert (Hat : forall i p, pasted sheet !! i = Some p -> all !! i = Some (snd p)).
  { intros i p Hp. rewrite Hpasted in Hp.
    change (map ?g ?l) with (g <$> l) in Hp. rewrite list_lookup_fmap in Hp.
    destruct (take (Z.to_nat copies) all !! i) as [at_ |] eqn:Hi; [| discriminate Hp].
    injection Hp as <-. apply lookup_take_Some in Hi as [Hi _]. exact Hi. }
  split.
  - apply Forall_forall. intros p Hin.
    apply list_elem_of_lookup_1 in Hin as (i & Hi). apply Hat in Hi.
    apply list_elem_of_lookup_2, list_elem_of_In, elem_of_cells in Hi
      as (row & col & Hrow & Hcol & ->).
    exact (a4_cell_inside margin spacing cols rows xo yo row col Hm Hs Hl Hrow Hcol).
  - intros i j p q Hij Hp Hq. apply Hat in Hp, Hq.
    exact (cells_disjoint xo yo spacing (range 0 cols) (range 0 rows) i j _ _ Hs
             (NoDup_seqZ _ _) (NoDup_seqZ _ _) Hij Hp Hq).
Qed.

End Facts.

(** The bounds check guards the right and bottom edges only: a negative
    margin lets a photo start left of and above the canvas. *)
Example negative_margin_pastes_off_canvas :
  exists sheet,
    draw_sheet Nominal.env (Nominal.photo RGB 600 600) 1 (-1000) 30 false = inr sheet /\
    map snd (pasted sheet) = [(-950, -751)].
Proof. eexists; split; reflexivity. Qed.

Lemma sheet_bitmap_bounds_witness :
  exists sheet,
    draw_sheet Nominal.env (Nominal.photo RGB 400 500) 4 (-1000) 30 true = inr sheet /\
    Z.of_nat (length (pasted sheet)) <= Z.max 0 4.
Proof.
  eexists. split; [reflexivity |].
  exact (proj1 (sheet_bitmap_bounds Nominal.env (Nominal.photo RGB 400 500) 4 (-1000) 30
                  true _ eq_refl)).
Defined.

Lemma sheet_bitmap_fills_grid_witness :
  exists sheet,
    draw_sheet Nominal.env (Nominal.photo RGB 600 600) 100 60 30 false = inr sheet /\
    Z.of_nat (length (pasted sheet)) = 15.
Proof.
  destruct (sheet_bitmap_fills_grid Nominal.env (Nominal.photo RGB 600 600)
              (Nominal.photo RGB 600 600) 100 60 30 false
              ltac:(lia) ltac:(lia) eq_refl)
    as (cols & rows & xo & yo & sheet & Hl & Hdraw & _ & Hcount).
  injection Hl as <- <- _ _. exists sheet. split; [exact Hdraw | exact Hcount].
Defined.

Lemma sheet_bitmap_photos_apart_witness :
  exists sheet,
    draw_sheet Nominal.env (Nominal.photo RGB 600 600) 6 0 0 true = inr sheet /\
    Forall (fun placed => inside_canvas (snd placed)) (pasted sheet).
Proof.
  eexists. split; [reflexivity |].
  exact (proj1 (sheet_bitmap_photos_apart Nominal.env (Nominal.photo RGB 600 600) 6 0 0
                  true _ ltac:(lia) ltac:(lia) eq_refl)).
Defined.

End SheetMore.

(** ** Placing several photos *)

Module MixedMore.
Import Pil A4 Grid PyFacts LayoutMore SheetMore.

Lemma nth_error_lookup {A} (l : list A) (i : nat) : nth_error l i = l !! i.
Proof. revert i. induction l as [| x l IH]; intros [| i]; cbn; auto. Qed.

Lemma zip_app_cells {A B} (l : list A) (a b : list B) :
  zip l (a ++ b) = zip l a ++ zip (drop (length a) l) b.
Proof.
  destruct (Nat.le_ge_cases (length a) (length l)) as [Hle | Hge].
  - rewrite <- (take_drop (length a) l) at 1.
    rewrite zip_with_app by (rewrite length_take; lia).
    f_equal. rewrite <- (zip_with_take_l _ l a) at 1. reflexivity.
  - rewrite drop_ge by exact Hge. cbn. rewrite app_nil_r.
    rewrite <- (zip_with_take_r _ l (a ++ b)), <- (zip_with_take_r _ l a).
    rewrite take_app_le by exact Hge. reflexivity.
Qed.

Ltac state_eq :=
  unfold Py.ok; apply f_equal;
  apply f_equal2; [apply f_equal2; [reflexivity |] |];
  cbn [length]; rewrite ?length_app; lia.

Section Facts.
Context {Pixels : Type} (env : Env Pixels).

Lemma place_row_multiple_exact (images photos : list (Image Pixels))
    (xo yo sp row : Z) (cols : list Z) (sheet : Sheet Pixels) (placed : Z) (idx : nat) :
  Forall2 (fun image photo => ensure_passport_size env image = inr photo) images photos ->
  (forall col, In col cols ->
     fits (xo + col * (PASSPORT_SIZE_PX + sp)) (yo + row * (PASSPORT_SIZE_PX + sp)) = true) ->
  let new :=
    zip (drop idx photos)
        (map (fun col => (xo + col * (PASSPORT_SIZE_PX + sp),
                          yo + row * (PASSPORT_SIZE_PX + sp))) cols) in
  place_row_multiple env images xo yo sp row cols (sheet, placed, idx) =
  Py.ok (with_pasted sheet new, placed + Z.of_nat (length new), (idx + length new)%nat).
Proof.
  intros Hens. revert sheet placed idx.
  induction cols as [| col cols IH]; intros sheet placed idx Hfit new.
  - unfold new. cbn [map place_row_multiple]. rewrite zip_with_nil_r.
    rewrite with_pasted_nil. state_eq.
  - cbn [place_row_multiple]. rewrite nth_error_lookup.
    destruct (images !! idx) as [image |] eqn:Him.
    + destruct (Forall2_lookup_l _ _ _ _ _ Hens Him) as (photo & Hph & Hen).
      rewrite (Hfit col) by (left; reflexivity). rewrite Hen. cbn [Py.bind Py.ok].
      rewrite IH by (intros; apply Hfit; right; assumption).
      unfold new. rewrite (drop_S _ _ _ Hph). cbn [map zip_with length].
      change (paste sheet photo ?p) with (with_pasted sheet [(photo, p)]).
      rewrite with_pasted_app. cbn [app]. state_eq.
    + apply lookup_ge_None in Him.
      assert (Hd : drop idx photos = []).
      { apply drop_ge. rewrite <- (Forall2_length _ _ _ Hens). exact Him. }
      unfold new. rewrite Hd. cbn. rewrite with_pasted_nil.
      state_eq.
Qed.

Lemma place_rows_multiple_exact (images photos : list (Image Pixels))
    (xo yo sp : Z) (cols rows : list Z) (sheet : Sheet Pixels) (placed : Z) (idx : nat) :
  Forall2 (fun image photo => ensure_passport_size env image = inr photo) images photos ->
  (forall row col, In row rows -> In col cols ->
     fits (xo + col * (PASSPORT_SIZE_PX + sp)) (yo + row * (PASSPORT_SIZE_PX + sp)) = true) ->
  let new := zip (drop idx photos) (cells xo yo sp cols rows) in
  place_rows_multiple env images xo yo sp cols rows (sheet, placed, idx) =
  Py.ok (with_pasted sheet new, placed + Z.of_nat (length new), (idx + length new)%nat).
Proof.
  intros Hens. pose proof (Forall2_length _ _ _ Hens) as Hlen.
  revert sheet placed idx.
  induction rows as [| row rows IH]; intros sheet placed idx Hfit new.
  - unfold new. cbn. rewrite zip_with_nil_r, with_pasted_nil. cbn.
    state_eq.
  - cbn [place_rows_multiple].
    rewrite (place_row_multiple_exact images photos xo yo sp row cols sheet placed idx Hens)
      by (intros; apply Hfit; [left; reflexivity | assumption]).
    cbn [Py.bind Py.ok snd].
    unfold new. rewrite cells_cons, zip_app_cells.
    set (rowcells := map _ cols).
    set (first := zip (drop idx photos) rowcells).
    assert (Hf : length first = Nat.min (length photos - idx) (length rowcells))
      by (unfold first; rewrite length_zip, length_drop; reflexivity).
    rewrite drop_drop.
    destruct (length images <=? idx + length first)%nat eqn:Hc.
    + apply Nat.leb_le in Hc.
      rewrite (drop_ge photos) by lia. cbn [zip_with].
      rewrite app_nil_r. reflexivity.
    + apply Nat.leb_gt in Hc.
      rewrite IH by (intros; apply Hfit; [right |]; assumption).
      rewrite with_pasted_app.
      assert (Hfull : length first = length rowcells) by lia.
      rewrite Hfull. rewrite length_app.
      state_eq.
Qed.

Lemma place_row_multiple_in_order (images : list (Image Pixels)) (xo yo sp row : Z)
    (cols : list Z) (st st' : MState) :
  in_order env images st ->
  place_row_multiple env images xo yo sp row cols st = inr st' ->
  in_order env images st'.
Proof.
  revert st. induction cols as [| col cols IH]; intros [[sheet placed] idx] Hst.
  - intros [= <-]. exact Hst.
  - cbn [place_row_multiple]. rewrite nth_error_lookup.
    destruct (images !! idx) as [image |] eqn:Him; [| intros [= <-]; exact Hst].
    destruct (fits _ _) eqn:Hf; [| apply IH, Hst].
    destruct (ensure_passport_size env image) as [e | photo] eqn:Hen;
      [discriminate |].
    cbn [Py.bind Py.ok]. apply IH.
    destruct Hst as (Hall & Hle & Hn). cbn [fst snd] in *.
    unfold in_order, paste. cbn [fst snd pasted].
    split; [| split].
    + rewrite (take_S_r _ _ _ Him). apply Forall2_app; [exact Hall |].
      constructor; [| constructor]. cbn [fst snd]. auto.
    + apply lookup_lt_Some in Him. lia.
    + lia.
Qed.

Lemma place_rows_multiple_in_order (images : list (Image Pixels)) (xo yo sp : Z)
    (cols rows : list Z) (st st' : MState) :
  in_order env images st ->
  place_rows_multiple env images xo yo sp cols rows st = inr st' ->
  in_order env images st'.
Proof.
  revert st. induction rows as [| row rows IH]; intros st Hst.
  - intros [= <-]. exact Hst.
  - cbn [place_rows_multiple]. intros H.
    apply bind_inr in H as (st1 & Hrow & H).
    apply place_row_multiple_in_order in Hrow; [| exact Hst].
    destruct (_ <=? _)%nat; [injection H as <-; exact Hrow | eapply IH; eassumption].
Qed.

(** The drawing of [make_a4_sheet_multiple] when every cell fits and every
    image reaches the passport size. *)
Lemma draw_sheet_multiple_exact (images photos : list (Image Pixels))
    (margin spacing : Z) (add_cut_lines : bool) :
  0 <= margin -> 0 <= spacing ->
  Forall2 (fun image photo => ensure_passport_size env image = inr photo) images photos ->
  exists cols rows x_offset y_offset sheet,
    calculate_grid_layout A4_SIZE_PX PASSPORT_SIZE_PX margin spacing
    = Py.ok (cols, rows, x_offset, y_offset) /\
    draw_sheet_multiple env images margin spacing add_cut_lines = inr sheet /\
    pasted sheet = zip photos (cells x_offset y_offset spacing (range 0 cols) (range 0 rows)) /\
    Z.of_nat (length (cells x_offset y_offset spacing (range 0 cols) (range 0 rows)))
    = cols * rows.
Proof.
  intros Hm Hs Hens.
  destruct (grid_layout_counts_and_offsets_exists margin spacing Hs)
    as (cols & rows & xo & yo & Hl & Hc & Hr).
  exists cols, rows, xo, yo.
  assert (Hfit : forall row col, In row (range 0 rows) -> In col (range 0 cols) ->
            fits (xo + col * (PASSPORT_SIZE_PX + spacing))
                 (yo + row * (PASSPORT_SIZE_PX + spacing)) = true).
  { intros row col Hrow Hcol. apply (inside_canvas_fits (_, _)).
    exact (a4_cell_inside margin spacing cols rows xo yo row col Hm Hs Hl Hrow Hcol). }
  pose proof (place_rows_multiple_exact images photos xo yo spacing
                (range 0 cols) (range 0 rows) (mkSheet A4_SIZE_PX [] []) 0 0%nat
                Hens Hfit) as Hloop.
  cbv zeta in Hloop. rewrite drop_0 in Hloop.
  set (all := cells xo yo spacing (range 0 cols) (range 0 rows)) in *.
  eexists. split; [exact Hl |]. split; [| split].
  - unfold draw_sheet_multiple.
    rewrite Hl. cbn [Py.bind Py.ok]. fold all. rewrite Hloop. cbn [Py.bind Py.ok].
    reflexivity.
  - destruct add_cut_lines; reflexivity.
  - unfold all. rewrite length_cells. unfold range. rewrite !length_seqZ. nia.
Qed.

(** X14.  Whatever the margin and the spacing, the photos on the sheet
    bitmap that [make_a4_sheet_multiple] draws (lines 153-188, before the
    conversion to PDF) are the first [k] input images, in input order, none
    skipped and none repeated, each brought to 600 x 600, and none reaches
    beyond the right or bottom edge. *)
Theorem mixed_bitmap_in_input_order (images : list (Image Pixels)) (margin spacing : Z)
    (add_cut_lines : bool) (sheet : Sheet Pixels) :
  draw_sheet_multiple env images margin spacing add_cut_lines = inr sheet ->
  exists k,
    (k <= length images)%nat /\
    Forall2 (fun image placed =>
               ensure_passport_size env image = inr (fst placed) /\
               size (fst placed) = (600, 600) /\
               fst (snd placed) + 600 <= A4_WIDTH_PX /\
               snd (snd placed) + 600 <= A4_HEIGHT_PX)
            (take k images) (pasted sheet).
Proof.
  intros Hd. unfold draw_sheet_multiple in Hd.
  apply bind_inr in Hd as ([[[cols rows] xo] yo] & _ & Hd).
  apply bind_inr in Hd as ([[sh' placed] idx] & Hloop & Hd).
  apply place_rows_multiple_in_order in Hloop.
  - destruct Hloop as (Hall & Hle & _). cbn [fst snd] in *.
    injection Hd as <-. exists idx. split; [exact Hle |].
    assert (Hp : pasted (if add_cut_lines
                         then add_cutting_guides sh' cols rows xo yo spacing else sh')
                 = pasted sh') by (destruct add_cut_lines; reflexivity).
    rewrite Hp. eapply Forall2_impl; [exact Hall |]. cbn beta.
    intros image [ph [x y]] [Hen Hf]. cbn [fst snd] in *.
    destruct (ensure_passport_size_ok env _ _ Hen) as [Hs _].
    unfold fits, PASSPORT_SIZE_PX in *. apply andb_prop in Hf as [Hx Hy].
    apply Z.leb_le in Hx, Hy. auto.
  - split; [constructor | split; [cbn; lia | reflexivity]].
Qed.

(** X15.  With non-negative margin and spacing and images that all reach
    the passport size, the loops of [make_a4_sheet_multiple] put image
    number [i] on cell number [i] of the grid, row by row, until the images
    or the cells run out: [min(len(images), cols * rows)] photos, the rest
    silently left off the sheet. *)
Theorem mixed_bitmap_fills_grid (images photos : list (Image Pixels))
    (margin spacing : Z) (add_cut_lines : bool) :
  0 <= margin -> 0 <= spacing ->
  Forall2 (fun image photo => ensure_passport_size env image = inr photo) images photos ->
  exists cols rows x_offset y_offset sheet,
    calculate_grid_layout A4_SIZE_PX PASSPORT_SIZE_PX margin spacing
    = Py.ok (cols, rows, x_offset, y_offset) /\
    draw_sheet_multiple env images margin spacing add_cut_lines = inr sheet /\
    pasted sheet
    = zip photos (cells x_offset y_offset spacing (range 0 cols) (range 0 rows)) /\
    Z.of_nat (length (pasted sheet)) = Z.min (Z.of_nat (length images)) (cols * rows).
Proof.
  intros Hm Hs Hens.
  destruct (draw_sheet_multiple_exact images photos margin spacing add_cut_lines
              Hm Hs Hens)
    as (cols & rows & xo & yo & sheet & Hl & Hdraw & Hpasted & Hcount).
  exists cols, rows, xo, yo, sheet.
  split; [exact Hl |]. split; [exact Hdraw |]. split; [exact Hpasted |].
  rewrite Hpasted, length_zip, <- (Forall2_length _ _ _ Hens). lia.
Qed.

End Facts.

Lemma mixed_bitmap_in_input_order_witness :
  exists sheet k,
    draw_sheet_multiple Nominal.env
      [Nominal.photo RGB 400 400; Nominal.photo RGBA 800 600] (-1000) 30 true = inr sheet /\
    (k <= 2)%nat /\
    Forall2 (fun image placed =>
               ensure_passport_size Nominal.env image = inr (fst placed) /\
               size (fst placed) = (600, 600) /\
               fst (snd placed) + 600 <= A4_WIDTH_PX /\
               snd (snd placed) + 600 <= A4_HEIGHT_PX)
            (take k [Nominal.photo RGB 400 400; Nominal.photo RGBA 800 600])
            (pasted sheet).
Proof.
  eexists.
  destruct (mixed_bitmap_in_input_order Nominal.env
              [Nominal.photo RGB 400 400; Nominal.photo RGBA 800 600] (-1000) 30 true _
              eq_refl) as (k & Hk & Hall).
  exists k. split; [reflexivity |]. split; [exact Hk | exact Hall].
Defined.

Lemma mixed_bitmap_fills_grid_witness :
  exists sheet,
    draw_sheet_multiple Nominal.env
      [Nominal.photo RGB 400 400; Nominal.photo RGBA 800 600] 60 30 false = inr sheet /\
    pasted sheet = [ (Nominal.photo RGB 600 600, (310, 194));
                     (Nominal.photo RGBA 600 600, (940, 194)) ].
Proof.
  destruct (mixed_bitmap_fills_grid Nominal.env
              [Nominal.photo RGB 400 400; Nominal.photo RGBA 800 600]
              [Nominal.photo RGB 600 600; Nominal.photo RGBA 600 600] 60 30 false
              ltac:(lia) ltac:(lia) ltac:(repeat constructor))
    as (cols & rows & xo & yo & sheet & Hl & Hdraw & Hpasted & _).
  injection Hl as <- <- <- <-. exists sheet. split; [exact Hdraw | exact Hpasted].
Defined.

End MixedMore.

(** ** Cutting guides, absorbed errors and the endpoints *)

Module EndpointMore.

Import Pil A4 Grid PyFacts LayoutMore SheetMore MixedMore ProcessPhoto ProcessPhotoFacts Main.

Section Facts.

Context {Pixels : Type} (env : Env Pixels).

(** X16.  [add_cutting_guides] adds [cols - 1] vertical and [rows - 1]
    horizontal lines, each straight and spanning the grid with 10 pixels to
    spare at both ends.  A photo pasted at [p] covers the pixel columns
    [p .. p + 599].  With a spacing of at least 2 each vertical line runs in
    the gap between two columns of photos, touching neither; with a spacing
    of 0 or 1 it runs along the first pixel column of the photos to its
    right, which it overwrites.  The same holds of the horizontal lines and
    the rows. *)
Theorem cutting_guides_between_cells (sheet : Sheet Pixels)
    (cols rows x_offset y_offset spacing : Z) :
  0 <= spacing ->
  exists vertical horizontal,
    guides (add_cutting_guides sheet cols rows x_offset y_offset spacing)
    = guides sheet ++ vertical ++ horizontal /\
    length vertical = Z.to_nat (cols - 1) /\
    length horizontal = Z.to_nat (rows - 1) /\
    Forall (fun line =>
              fst (fst line) = fst (snd line) /\
              snd (fst line) = y_offset - 10 /\
              snd (snd line)
              = y_offset + (rows * PASSPORT_SIZE_PX + (rows - 1) * spacing) + 10 /\
              (2 <= spacing ->
               forall col : Z,
                 fst (fst line) < x_offset + col * (PASSPORT_SIZE_PX + spacing) \/
                 x_offset + col * (PASSPORT_SIZE_PX + spacing) + PASSPORT_SIZE_PX
                 <= fst (fst line)) /\
              (spacing <= 1 ->
               exists col : Z,
                 1 <= col < cols /\
                 fst (fst line) = x_offset + col * (PASSPORT_SIZE_PX + spacing)))
           vertical /\
    Forall (fun line =>
              snd (fst line) = snd (snd line) /\
              fst (fst line) = x_offset - 10 /\
              fst (snd line)
              = x_offset + (cols * PASSPORT_SIZE_PX + (cols - 1) * spacing) + 10 /\
              (2 <= spacing ->
               forall row : Z,
                 snd (fst line) < y_offset + row * (PASSPORT_SIZE_PX + spacing) \/
                 y_offset + row * (PASSPORT_SIZE_PX + spacing) + PASSPORT_SIZE_PX
                 <= snd (fst line)) /\
              (spacing <= 1 ->
               exists row : Z,
                 1 <= row < rows /\
                 snd (fst line) = y_offset + row * (PASSPORT_SIZE_PX + spacing)))
           horizontal.
Proof.
  intros Hs. unfold add_cutting_guides. cbn [guides pasted].
  eexists _, _. split; [reflexivity |].
  split; [rewrite length_map; unfold range; rewrite length_seqZ; reflexivity |].
  split; [rewrite length_map; unfold range; rewrite length_seqZ; reflexivity |].
  unfold PASSPORT_SIZE_PX.
  split; apply Forall_forall; intros line Hin;
    apply list_elem_of_In, in_map_iff in Hin as (k & <- & Hk);
    apply list_elem_of_In, elem_of_seqZ in Hk;
    cbn [fst snd]; (split; [reflexivity |]); (split; [reflexivity |]);
    (split; [ring |]); split.
  - intros H2 c.
    assert (Hh : 1 <= spacing / 2 <= spacing) by (Z.div_mod_to_equations; lia).
    destruct (Z_le_gt_dec k c); [left | right]; nia.
  - intros H1. exists k. split; [lia |].
    assert (Hh : spacing / 2 = 0) by (Z.div_mod_to_equations; lia).
    rewrite Hh. lia.
  - intros H2 c.
    assert (Hh : 1 <= spacing / 2 <= spacing) by (Z.div_mod_to_equations; lia).
    destruct (Z_le_gt_dec k c); [left | right]; nia.
  - intros H1. exists k. split; [lia |].
    assert (Hh : spacing / 2 = 0) by (Z.div_mod_to_equations; lia).
    rewrite Hh. lia.
Qed.

(** A photo that already has the passport size is not resampled. *)
Lemma ensure_passport_size_noop (img : Image Pixels) :
  size img = (PASSPORT_SIZE_PX, PASSPORT_SIZE_PX) -> ensure_passport_size env img = inr img.
Proof.
  intros Hs. unfold ensure_passport_size. rewrite bool_decide_eq_true_2 by exact Hs.
  reflexivity.
Qed.

Lemma process_passport_photo_shape (pil_img : Image Pixels) (o : Options) :
  size (process_passport_photo env pil_img o) = (600, 600) /\
  mode (process_passport_photo env pil_img o) = RGB.
Proof.
  unfold process_passport_photo.
  destruct (pipeline env pil_img o) as [e | final] eqn:Hp; [| eapply pipeline_ok, Hp].
  destruct (emergency_fallback env pil_img) as [e' | fb] eqn:Hf;
    [split; reflexivity | eapply emergency_fallback_ok, Hf].
Qed.

(** X17.  The planner's division by zero does not escape its callers: with
    a spacing of minus the cell size the drawing raises
    [ZeroDivisionError], and [make_a4_sheet] and [make_a4_sheet_multiple]
    return what [create_empty_pdf] returns, the error page when it renders,
    for every photo, count and margin. *)
Theorem zero_pitch_gives_error_page (img : Image Pixels) (images : list (Image Pixels))
    (copies margin : Z) (add_cut_lines : bool) :
  make_a4_sheet env img copies margin (- PASSPORT_SIZE_PX) add_cut_lines
  = create_empty_pdf env /\
  make_a4_sheet_multiple env images margin (- PASSPORT_SIZE_PX) add_cut_lines
  = create_empty_pdf env /\
  (pdf_error_page_ok env = true -> create_empty_pdf env = ErrorPdf) /\
  (forall photo,
     ensure_passport_size env img = inr photo ->
     draw_sheet env img copies margin (- PASSPORT_SIZE_PX) add_cut_lines
     = inl Py.ZeroDivisionError) /\
  draw_sheet_multiple env images margin (- PASSPORT_SIZE_PX) add_cut_lines
  = inl Py.ZeroDivisionError.
Proof.
  split; [| split; [| split; [| split]]].
  - unfold make_a4_sheet, draw_sheet.
    destruct (ensure_passport_size env img); reflexivity.
  - unfold make_a4_sheet_multiple. destruct images; reflexivity.
  - intros H. unfold create_empty_pdf. rewrite H. reflexivity.
  - intros photo Hphoto. unfold draw_sheet. rewrite Hphoto. reflexivity.
  - reflexivity.
Qed.

End Facts.

Section Endpoints.

Context {Pixels : Type} (env : Env Pixels).

Variable png_ok : Image Pixels -> bool.
Variable str_of_exn : Py.exn -> string.

(** X18.  [/process] crops by hand only when all four of [crop_x],
    [crop_y], [crop_width] and [crop_height] are sent: the box is then
    exactly [(x, y, x + w, y + h)], also when all four are 0, on the image
    rotated by [-crop_rotation] when that is given and not 0.  If any of the
    four is missing the others are ignored and the automatic crop runs. *)
Theorem process_crop_fields (img : Image Pixels) (bg_color : PyVal.value) (face_scale : Q)
    (crop_x crop_y crop_width crop_height crop_rotation : option Z) :
  crop_step env img
    (mkOptions bg_color face_scale 1 1 true
       (crop_data_of_form crop_x crop_y crop_width crop_height crop_rotation))
  = match crop_x, crop_y, crop_width, crop_height with
    | Some x, Some y, Some w, Some h =>
        let rotation := default 0 crop_rotation in
        let* rotated := if rotation =? 0 then Py.ok img
                        else rotate env img (- rotation) in
        crop env rotated (x, y, x + w, y + h)
    | _, _, _, _ => auto_crop env img face_scale
    end.
Proof.
  unfold crop_data_of_form.
  destruct crop_x as [x |], crop_y as [y |], crop_width as [w |], crop_height as [h |];
    try reflexivity.
  unfold crop_step. cbn [crop_data].
  rewrite truthy_nonempty by apply insert_non_empty.
  change (default ∅ (Some ?d)) with d.
  unfold manual_crop, get. simplify_map_eq. cbv zeta.
  destruct (default 0 crop_rotation =? 0); reflexivity.
Qed.

(** X19.  For an upload of an image type, within the size limit, that
    opens in mode RGB or RGBA, [/process] with [make_a4] never answers with
    an HTTP error, whatever fails inside the pipeline, and reports 12
    copies.  The sheet bitmap it has drawn holds exactly 12 copies of the
    processed photo, not resampled, on the first four rows of the grid; but
    the PDF it sends is what [create_empty_pdf] returns, the error page
    when that renders, with no photo on it. *)
Theorem process_endpoint_answers_error_page (file : Upload Pixels) (image : Image Pixels)
    (bg_color : string) (face_scale : Q)
    (crop_x crop_y crop_width crop_height crop_rotation : option Z) :
  PyStr.startswith "image/" (content_type file) = true ->
  content_length file <= MAX_SIZE ->
  opened file = inr image ->
  mode image = RGB \/ mode image = RGBA ->
  let result_img :=
    process_passport_photo env image
      (mkOptions (PyVal.VStr bg_color) face_scale 1 1 true
         (crop_data_of_form crop_x crop_y crop_width crop_height crop_rotation)) in
  process_photo env png_ok str_of_exn file bg_color true face_scale
    crop_x crop_y crop_width crop_height crop_rotation
  = PdfResponse (create_empty_pdf env) 12 /\
  placed_photos (create_empty_pdf env) = [] /\
  (pdf_error_page_ok env = true -> create_empty_pdf env = ErrorPdf) /\
  exists sheet,
    draw_sheet env result_img 12 60 30 true = inr sheet /\
    pasted sheet =
      map (fun at_ => (result_img, at_))
          [ (310, 194); (940, 194); (1570, 194);
            (310, 824); (940, 824); (1570, 824);
            (310, 1454); (940, 1454); (1570, 1454);
            (310, 2084); (940, 2084); (1570, 2084) ].
Proof.
  intros Htype Hsize Hopen Hmode result_img.
  split; [| split; [| split]].
  - unfold process_photo. rewrite Htype. cbn [negb].
    destruct (MAX_SIZE <? content_length file) eqn:Hb; [apply Z.ltb_lt in Hb; lia |].
    rewrite Hopen. cbn [Py.bind].
    destruct Hmode as [-> | ->]; cbn [Py.bind Py.ok];
      rewrite A4Facts.make_a4_sheet_error_page; reflexivity.
  - apply A4Facts.create_empty_pdf_no_photo.
  - intros H. unfold create_empty_pdf. rewrite H. reflexivity.
  - destruct (process_passport_photo_shape env image
                (mkOptions (PyVal.VStr bg_color) face_scale 1 1 true
                   (crop_data_of_form crop_x crop_y crop_width crop_height crop_rotation)))
      as [Hs _]. fold result_img in Hs.
    destruct (draw_sheet_exact env result_img result_img 12 60 30 true 3 5 310 194)
      as (sheet & Hdraw & _ & Hpasted & _);
      [lia | lia | apply ensure_passport_size_noop; exact Hs | reflexivity |].
    exists sheet. split; [exact Hdraw | exact Hpasted].
Qed.

Lemma batch_loop_shape (files : list (Upload Pixels)) (bg_color : string)
    (acc : list (Image Pixels)) :
  Forall (fun photo => size photo = (600, 600) /\ mode photo = RGB) acc ->
  Forall (fun photo => size photo = (600, 600) /\ mode photo = RGB)
         (batch_loop env files bg_color acc) /\
  (length (batch_loop env files bg_color acc) <= length acc + length files)%nat.
Proof.
  revert acc. induction files as [| file files IH]; intros acc Hacc.
  - cbn. split; [exact Hacc | lia].
  - cbn [batch_loop length].
    destruct (negb _); [destruct (IH acc Hacc); split; [assumption | lia] |].
    destruct (Py.bind _ _) as [e | image];
      [destruct (IH acc Hacc); split; [assumption | lia] |].
    match goal with |- context [batch_loop env files bg_color (acc ++ [?r])] =>
      destruct (IH (acc ++ [r])) as [H1 H2] end.
    + apply Forall_app. split; [exact Hacc |].
      constructor; [apply process_passport_photo_shape | constructor].
    + split; [exact H1 |]. rewrite length_app in H2. cbn [length] in H2. lia.
Qed.

(** X20.  [/batch-process] with [make_a4] and at most 10 files, at least
    one of which is processed: every file that is an image and opens is
    processed to a 600 x 600 RGB photo, and the sheet bitmap drawn holds
    each of these photos exactly once, in upload order, on the first cells
    of the 3 x 5 grid.  The answer reports their number, but the PDF it
    carries is what [create_empty_pdf] returns, with no photo on it. *)
Theorem batch_endpoint_answers_error_page (files : list (Upload Pixels)) (bg_color : string) :
  (length files <= 10)%nat ->
  let processed := batch_loop env files bg_color [] in
  processed <> [] ->
  Forall (fun photo => size photo = (600, 600) /\ mode photo = RGB) processed /\
  batch_process_photos env png_ok files bg_color true
  = Py.ok (PdfResponse (create_empty_pdf env) (Z.of_nat (length processed))) /\
  placed_photos (create_empty_pdf env) = [] /\
  exists sheet,
    draw_sheet_multiple env processed 60 30 true = inr sheet /\
    map fst (pasted sheet) = processed /\
    map snd (pasted sheet)
    = take (length processed) (cells 310 194 30 (range 0 3) (range 0 5)).
Proof.
  intros Hn processed Hne.
  destruct (batch_loop_shape files bg_color [] ltac:(constructor)) as [Hshape Hlen].
  fold processed in Hshape, Hlen. cbn [length] in Hlen.
  split; [exact Hshape |].
  split.
  { unfold batch_process_photos.
    destruct (10 <? length files)%nat eqn:Hb; [apply Nat.ltb_lt in Hb; lia |].
    fold processed. destruct processed as [| p ps]; [contradiction |].
    rewrite A4Facts.make_a4_sheet_multiple_error_page. reflexivity. }
  split; [apply A4Facts.create_empty_pdf_no_photo |].
  assert (Hens : Forall2 (fun image photo => ensure_passport_size env image = inr photo)
                   processed processed).
  { apply Forall2_same_length_lookup. split; [reflexivity |].
    intros i x y Hx Hy. rewrite Hx in Hy. injection Hy as <-.
    apply ensure_passport_size_noop.
    eapply (Forall_lookup_1 _ _ _ _ Hshape) in Hx. apply Hx. }
  destruct (draw_sheet_multiple_exact env processed processed 60 30 true)
    as (cols & rows & xo & yo & sheet & Hl & Hdraw & Hpasted & Hcount);
    [lia | lia | exact Hens |].
  change (calculate_grid_layout A4_SIZE_PX PASSPORT_SIZE_PX 60 30)
    with (Py.ok (A := Z * Z * Z * Z) (3, 5, 310, 194)) in Hl.
  injection Hl as <- <- <- <-.
  exists sheet. split; [exact Hdraw |]. split.
  - rewrite Hpasted. change (map fst ?l) with (l.*1). apply fst_zip. lia.
  - rewrite Hpasted. change (map snd ?l) with (l.*2).
    rewrite <- (zip_with_take_r _ processed). apply snd_zip.
    rewrite length_take. lia.
Qed.

End Endpoints.

(** At spacing 0 the first vertical guide of the default sheet is drawn at
    x = 940, the left edge of the photos of the second column. *)
Example guide_on_photo_edge :
  exists sheet,
    draw_sheet Nominal.env (Nominal.photo RGB 600 600) 12 60 0 true = inr sheet /\
    In ((940, 244), (940, 3264)) (guides sheet) /\
    In (Nominal.photo RGB 600 600, (940, 254)) (pasted sheet).
Proof.
  eexists. split; [reflexivity |].
  split; [left; reflexivity | right; left; reflexivity].
Qed.

Lemma cutting_guides_between_cells_witness :
  exists vertical horizontal,
    guides (add_cutting_guides (mkSheet (Pixels := unit) A4_SIZE_PX [] []) 3 5 310 194 30)
    = vertical ++ horizontal /\
    length vertical = 2%nat /\ length horizontal = 4%nat.
Proof.
  destruct (cutting_guides_between_cells (mkSheet (Pixels := unit) A4_SIZE_PX [] [])
              3 5 310 194 30 ltac:(lia))
    as (vertical & horizontal & Heq & Hv & Hh & _).
  exists vertical, horizontal. split; [exact Heq |]. split; [exact Hv | exact Hh].
Defined.

Lemma process_endpoint_answers_error_page_witness :
  process_photo Nominal.env (fun _ => true) (fun _ => EmptyString)
    (mkUpload "image/png" 100000 (inr (Nominal.photo RGB 800 600)))
    "white" true 2 None None None None None
  = PdfResponse ErrorPdf 12.
Proof.
  exact (proj1 (process_endpoint_answers_error_page Nominal.env (fun _ => true)
                  (fun _ => EmptyString)
                  (mkUpload "image/png" 100000 (inr (Nominal.photo RGB 800 600)))
                  (Nominal.photo RGB 800 600) "white" 2 None None None None None
                  eq_refl ltac:(vm_compute; discriminate) eq_refl (or_introl eq_refl))).
Defined.

Lemma batch_endpoint_answers_error_page_witness :
  batch_process_photos Nominal.env (fun _ => true)
    [ mkUpload "image/png" 100000 (inr (Nominal.photo RGB 800 600));
      mkUpload "text/plain" 10 (inr (Nominal.photo RGB 800 600));
      mkUpload "image/jpeg" 10 (inl Py.ValueError) ] "blue" true
  = Py.ok (PdfResponse ErrorPdf 1) /\
  exists sheet,
    draw_sheet_multiple Nominal.env [Nominal.photo RGB 600 600] 60 30 true = inr sheet /\
    map fst (pasted sheet) = [Nominal.photo RGB 600 600].
Proof.
  destruct (batch_endpoint_answers_error_page Nominal.env (fun _ => true)
              [ mkUpload "image/png" 100000 (inr (Nominal.photo RGB 800 600));
                mkUpload "text/plain" 10 (inr (Nominal.photo RGB 800 600));
                mkUpload "image/jpeg" 10 (inl Py.ValueError) ] "blue"
              ltac:(cbn; lia) ltac:(discriminate))
    as (_ & Hdoc & _ & sheet & Hdraw & Hfst & _).
  split; [exact Hdoc |]. exists sheet. split; [exact Hdraw | exact Hfst].
Defined.

End EndpointMore.
